(** * The glucose monitor widget of yasb: worker thread and status handler

  A shallow embedding of [src/core/widgets/yasb/glucose_monitor.py].
  Python strings are kept as the bytes of their UTF-8 encoding, Python
  integers are [Z], Python floats are the binary64 values of
  [SpecFloat], exceptions are values of a result type, and the Qt side
  (signals, labels, tooltip, toasts) is explicit state that the handlers
  pass along. *)

From Stdlib Require Import ZArith QArith Qround Qabs Lia String Ascii List Bool.
From Stdlib Require Import DecimalString.
From Stdlib Require Import Floats.SpecFloat.
From stdpp Require Import gmap strings.
Import ListNotations.
Open Scope Z_scope.
Set Warnings "-register-all".

(** ** Python exceptions and results *)

Module Py.

(** The exception classes the widget can meet.  [RecursionError] is a
    subclass of [RuntimeError]; [HTTPError] and [URLError] are subclasses
    of [OSError]; none of the others derives from [RuntimeError]. *)
Inductive exn_class :=
| RuntimeError | RecursionError
| KeyError | IndexError | TypeError | ValueError | OverflowError
| AttributeError | OSError | URLError | HTTPError.

(** An exception: its class and its argument, the message or, for a
    [KeyError], the missing key. *)
Record exn := Exn { exn_cls : exn_class; exn_arg : string }.

(** [isinstance(e, RuntimeError)] *)
Definition is_RuntimeError (e : exn) : bool :=
  match exn_cls e with
  | RuntimeError | RecursionError => true
  | _ => false
  end.

Inductive result (A : Type) :=
| Ok (a : A)
| Raise (e : exn).
Arguments Ok {A} a.
Arguments Raise {A} e.

Definition bind {A B} (r : result A) (k : A -> result B) : result B :=
  match r with
  | Ok a => k a
  | Raise e => Raise e
  end.

Definition raise {A} (c : exn_class) (msg : string) : result A :=
  Raise (Exn c msg).

Definition is_ok {A} (r : result A) : bool :=
  match r with Ok _ => true | Raise _ => false end.

End Py.
Export Py.

Notation "'do' x <- c1 ; c2" := (Py.bind c1 (fun x => c2))
(at level 10, x name, c1 at level 100, c2 at level 200).

(** ** Python strings *)

Module PyStr.

Definition code (c : ascii) : Z := Z.of_N (N_of_ascii c).

(** [str(z)] for a Python int. *)
Definition of_int (z : Z) : string :=
  DecimalString.NilZero.string_of_int (Z.to_int z).

Fixpoint rev_onto (s acc : string) : string :=
  match s with
  | EmptyString => acc
  | String c t => rev_onto t (String c acc)
  end.

Definition rev (s : string) : string := rev_onto s EmptyString.

(** [s.startswith(p)], returning what follows the prefix. *)
Fixpoint strip_prefix (p s : string) : option string :=
  match p, s with
  | EmptyString, _ => Some s
  | String a p', String b s' =>
      if Ascii.eqb a b then strip_prefix p' s' else None
  | String _ _, EmptyString => None
  end.

Definition startswith (s p : string) : bool :=
  match strip_prefix p s with Some _ => true | None => false end.

(** [needle in hay] *)
Fixpoint contains (needle hay : string) : bool :=
  startswith hay needle ||
  match hay with
  | EmptyString => false
  | String _ t => contains needle t
  end.

(** The characters [str.isspace] accepts, by their UTF-8 encoding:
    one byte (tab to carriage return, the four separators 0x1c-0x1f and
    the space), two bytes (U+0085, U+00A0) and three bytes (U+1680,
    U+2000-U+200A, U+2028, U+2029, U+202F, U+205F, U+3000). *)
Definition space1 (a : ascii) : bool :=
  let n := code a in
  ((9 <=? n) && (n <=? 13)) || ((28 <=? n) && (n <=? 32)).

Definition space2 (a b : ascii) : bool :=
  (code a =? 194) && ((code b =? 133) || (code b =? 160)).

Definition space3 (a b c : ascii) : bool :=
  let x := code a in let y := code b in let z := code c in
  ((x =? 225) && (y =? 154) && (z =? 128))
  || ((x =? 226) && (y =? 128)
      && (((128 <=? z) && (z <=? 138)) || (z =? 168) || (z =? 169)
          || (z =? 175)))
  || ((x =? 226) && (y =? 129) && (z =? 159))
  || ((x =? 227) && (y =? 128) && (z =? 128)).

(** [s.lstrip()] *)
Fixpoint lstrip (s : string) : string :=
  match s with
  | String a t1 =>
      if space1 a then lstrip t1 else
      match t1 with
      | String b t2 =>
          if space2 a b then lstrip t2 else
          match t2 with
          | String c t3 => if space3 a b c then lstrip t3 else s
          | EmptyString => s
          end
      | EmptyString => s
      end
  | EmptyString => s
  end.

(** [lstrip] on the reversed string: the encodings are read backwards. *)
Fixpoint lstrip_rev (s : string) : string :=
  match s with
  | String a t1 =>
      if space1 a then lstrip_rev t1 else
      match t1 with
      | String b t2 =>
          if space2 b a then lstrip_rev t2 else
          match t2 with
          | String c t3 => if space3 c b a then lstrip_rev t3 else s
          | EmptyString => s
          end
      | EmptyString => s
      end
  | EmptyString => s
  end.

(** [s.rstrip()] *)
Definition rstrip (s : string) : string := rev (lstrip_rev (rev s)).

(** [s.strip()] *)
Definition strip (s : string) : string := rstrip (lstrip s).

Definition is_empty (s : string) : bool :=
  match s with EmptyString => true | _ => false end.

Definition is_digit (a : ascii) : bool :=
  (48 <=? code a) && (code a <=? 57).

Fixpoint all_digits (s : string) : bool :=
  match s with
  | EmptyString => true
  | String a t => is_digit a && all_digits t
  end.

Fixpoint all_ascii (s : string) : bool :=
  match s with
  | EmptyString => true
  | String a t => (code a <? 128) && all_ascii t
  end.

Fixpoint has_char (x : ascii) (s : string) : bool :=
  match s with
  | EmptyString => false
  | String a t => Ascii.eqb a x || has_char x t
  end.

End PyStr.

(** ** The two regular expressions of [_update_label]

  [re.split("(<span.*?>.*?</span>)", s)] and
  [re.sub("<span.*?>|</span>", "", s)], by the backtracking order of
  Python's [re]: a lazy [.*?] first tries to stop, then takes one more
  character, and [.] takes anything but a line feed. *)

Module Re.
Import PyStr.

Definition dot (c : ascii) : bool := negb (code c =? 10).

Definition cons_fst (c : ascii) (r : option (string * string))
  : option (string * string) :=
  match r with
  | Some (m, rest) => Some (String c m, rest)
  | None => None
  end.

(** [.*?</span>] at the head of [s]: the text matched and what follows. *)
Fixpoint lazy_close (s : string) : option (string * string) :=
  match strip_prefix "</span>" s with
  | Some rest => Some ("</span>", rest)
  | None =>
      match s with
      | String c t => if dot c then cons_fst c (lazy_close t) else None
      | EmptyString => None
      end
  end.

(** [.*?>.*?</span>] at the head of [s]. *)
Fixpoint lazy_open (s : string) : option (string * string) :=
  match s with
  | EmptyString => None
  | String c t =>
      match (if code c =? 62 then cons_fst c (lazy_close t) else None) with
      | Some r => Some r
      | None => if dot c then cons_fst c (lazy_open t) else None
      end
  end.

(** [<span.*?>.*?</span>] at the head of [s]. *)
Definition match_span (s : string) : option (string * string) :=
  match strip_prefix "<span" s with
  | Some t =>
      match lazy_open t with
      | Some (m, rest) => Some ("<span" +:+ m, rest)
      | None => None
      end
  | None => None
  end.

(** [.*?>] at the head of [s], only what follows is kept. *)
Fixpoint lazy_gt (s : string) : option string :=
  match s with
  | EmptyString => None
  | String c t =>
      if code c =? 62 then Some t
      else if dot c then lazy_gt t else None
  end.

(** [<span.*?>|</span>] at the head of [s]: what follows the match. *)
Definition match_tag (s : string) : option string :=
  match (match strip_prefix "<span" s with
         | Some t => lazy_gt t
         | None => None
         end) with
  | Some rest => Some rest
  | None => strip_prefix "</span>" s
  end.

(** Put [c] in front of the first piece. *)
Definition push (c : ascii) (l : list string) : list string :=
  match l with
  | h :: tl => String c h :: tl
  | [] => [String c EmptyString]
  end.

(** [re.split("(<span.*?>.*?</span>)", s)]: the text before each match,
    the match itself (the pattern is one capturing group), and the text
    after the last match.  Every match consumes at least one character,
    so [n] steps are enough for a string shorter than [n]. *)
Fixpoint split_spans (n : nat) (s : string) : list string :=
  match n with
  | O => [s]
  | S n' =>
      match match_span s with
      | Some (m, rest) => "" :: m :: split_spans n' rest
      | None =>
          match s with
          | String c t => push c (split_spans n' t)
          | EmptyString => [""]
          end
      end
  end.

Definition split (s : string) : list string :=
  split_spans (S (String.length s)) s.

(** [re.sub("<span.*?>|</span>", "", s)] *)
Fixpoint sub_tags (n : nat) (s : string) : string :=
  match n with
  | O => s
  | S n' =>
      match match_tag s with
      | Some rest => sub_tags n' rest
      | None =>
          match s with
          | String c t => String c (sub_tags n' t)
          | EmptyString => ""
          end
      end
  end.

Definition sub (s : string) : string :=
  sub_tags (S (String.length s)) s.

End Re.

(** ** [str.format_map]

  The replacement fields of the modelled fragment are plain names,
  [{name}], with the doubled braces as escapes.  A field that carries a
  conversion ([!r]), a format specification ([:>5]), an index or an
  attribute, or a name outside ASCII, is outside the fragment: the
  result is then [None]. *)

Module Fmt.
Import PyStr.

(** The values [_status_data] holds: strings and one int. *)
Inductive value :=
| VStr (s : string)
| VInt (z : Z).

(** [format(v, "")] *)
Definition str (v : value) : string :=
  match v with
  | VStr s => s
  | VInt z => of_int z
  end.

Definition is_char (x : Z) (c : ascii) : bool := code c =? x.

(** Where the scan of the format string stands: in literal text, or
    inside a replacement field whose name so far is [acc], reversed. *)
Inductive mode :=
| Text
| Field (acc : string).

Definition emit (c : ascii) (r : option (result string))
  : option (result string) :=
  match r with
  | Some (Ok t) => Some (Ok (String c t))
  | other => other
  end.

(** The object a field name stands for: the empty name and a number are
    positional, which [format_map] refuses; any other name is a key of
    the mapping. *)
Definition get_field (name : string) (data : gmap string value)
  : option (result string) :=
  if is_empty name || all_digits name then
    Some (raise ValueError "Format string contains positional fields")
  else if has_char "."%char name || negb (all_ascii name) then None
  else match data !! name with
       | Some v => Some (Ok (str v))
       | None => Some (raise KeyError name)
       end.

Fixpoint scan (s : string) (m : mode) (data : gmap string value)
  : option (result string) :=
  match m, s with
  | Text, EmptyString => Some (Ok EmptyString)
  | Text, String c t =>
      if is_char 123 c then
        match t with
        | EmptyString =>
            Some (raise ValueError "Single '{' encountered in format string")
        | String c' t' =>
            if is_char 123 c' then emit c (scan t' Text data)
            else scan t (Field EmptyString) data
        end
      else if is_char 125 c then
        match t with
        | String c' t' =>
            if is_char 125 c' then emit c (scan t' Text data)
            else Some (raise ValueError
                         "Single '}' encountered in format string")
        | EmptyString =>
            Some (raise ValueError "Single '}' encountered in format string")
        end
      else emit c (scan t Text data)
  | Field acc, EmptyString =>
      Some (raise ValueError "expected '}' before end of string")
  | Field acc, String c t =>
      if is_char 125 c then
        match get_field (rev acc) data with
        | Some (Ok v) =>
            match scan t Text data with
            | Some (Ok r) => Some (Ok (v +:+ r))
            | other => other
            end
        | other => other
        end
      else if is_char 123 c then
        Some (raise ValueError "unexpected '{' in field name")
      else if is_char 91 c || is_char 58 c || is_char 33 c then None
      else scan t (Field (String c acc)) data
  end.

(** [s.format_map(data)] *)
Definition format_map (s : string) (data : gmap string value)
  : option (result string) :=
  scan s Text data.

End Fmt.

(** ** Python floats *)

Abbreviation float := spec_float.

Module PyFloat.

Definition prec : Z := 53.
Definition emax : Z := 1024.

(** [float(z)] for a Python int: the nearest binary64, or
    [OverflowError] when [z] is too large. *)
Definition of_int (z : Z) : result float :=
  match binary_normalize prec emax z 0 false with
  | S754_infinity _ => raise OverflowError "int too large to convert to float"
  | f => Ok f
  end.

(** IEEE division, [x / y] on two floats with [y] non-zero. *)
Definition div (x y : float) : float := SFdiv prec emax x y.

(** The float 18.0, what the int 18 becomes next to a float operand. *)
Definition eighteen : float := binary_normalize prec emax 18 0 false.

(** A finite float with a negative exponent is its mantissa [n] over a
    power of two [d]; this is the integer nearest to that quotient, ties
    going to the even neighbour, as C's [round] followed by Python's
    half-even correction computes it. *)
Definition round_half_even_div (n d : Z) : Z :=
  let q := n / d in
  let r := n mod d in
  match 2 * r ?= d with
  | Lt => q
  | Gt => q + 1
  | Eq => if Z.even q then q else q + 1
  end.

(** [round(x)] with one argument, on a float. *)
Definition round (x : float) : result Z :=
  match x with
  | S754_nan => raise ValueError "cannot convert float NaN to integer"
  | S754_infinity _ =>
      raise OverflowError "cannot convert float infinity to integer"
  | S754_zero _ => Ok 0
  | S754_finite s m e =>
      let a := match e with
               | Z0 => Zpos m
               | Zpos p => Zpos m * 2 ^ Zpos p
               | Zneg p => round_half_even_div (Zpos m) (2 ^ Zpos p)
               end in
      Ok (if s then - a else a)
  end.

(** The exact value of a finite float as a rational. *)
Definition to_Q (x : float) : Q :=
  match x with
  | S754_finite s m e =>
      let a := match e with
               | Z0 => inject_Z (Zpos m)
               | Zpos p => inject_Z (Zpos m * 2 ^ Zpos p)
               | Zneg p => Qmake (Zpos m) (2 ^ p)%positive
               end in
      if s then Qopp a else a
  | _ => 0%Q
  end.

(** [format(x, ".1f")]: the decimal with one fractional digit nearest
    to the exact value of [x], ties to the even digit, and the sign kept
    also when every digit is zero. *)
Definition format_1f (x : float) : string :=
  match x with
  | S754_nan => "nan"
  | S754_infinity s => if s then "-inf" else "inf"
  | S754_zero s => if s then "-0.0" else "0.0"
  | S754_finite s m e =>
      let tenths := match e with
                    | Z0 => Zpos m * 10
                    | Zpos p => Zpos m * 2 ^ Zpos p * 10
                    | Zneg p =>
                        round_half_even_div (Zpos m * 10) (2 ^ Zpos p)
                    end in
      (if s then "-" else "")
        +:+ PyStr.of_int (tenths / 10) +:+ "." +:+ PyStr.of_int (tenths mod 10)
  end.

(** An int as an exact, not yet rounded, operand of a division. *)
Definition exact (z : Z) : float :=
  match z with
  | Z0 => S754_zero false
  | Zpos p => S754_finite false p 0
  | Zneg p => S754_finite true p 0
  end.

(** [z / d] on two Python ints, [d] not zero: the binary64 nearest to
    the exact quotient, or [OverflowError]. *)
Definition int_truediv (z d : Z) : result float :=
  match div (exact z) (exact d) with
  | S754_infinity _ =>
      raise OverflowError "integer division result too large for a float"
  | f => Ok f
  end.

Definition is_finite (x : float) : bool :=
  match x with
  | S754_finite _ _ _ | S754_zero _ => true
  | _ => false
  end.

Definition sign_bit (x : float) : bool :=
  match x with
  | S754_finite s _ _ | S754_zero s | S754_infinity s => s
  | S754_nan => false
  end.

End PyFloat.


(** ** [datetime]: parsing [dateString] and the elapsed minutes

  [strptime] is modelled for the one format the widget uses,
  [datetime_format = "%Y-%m-%dT%H:%M:%S.%f%z"], directive by directive
  as [_strptime] turns it into a regular expression; digits are the
  ASCII digits. *)

Module DateTime.
Import PyStr.

(** An aware [datetime]: the fields of its local time and its
    [utcoffset()] in microseconds. *)
Record datetime := {
  year : Z; month : Z; day : Z;
  hour : Z; minute : Z; second : Z; microsecond : Z;
  utcoffset : Z
}.

Definition _is_leap (y : Z) : bool :=
  (y mod 4 =? 0) && (negb (y mod 100 =? 0) || (y mod 400 =? 0)).

Definition _days_before_year (y : Z) : Z :=
  let y := y - 1 in y * 365 + y / 4 - y / 100 + y / 400.

Definition _days_in_month (y m : Z) : Z :=
  if (m =? 2) && _is_leap y then 29
  else nth (Z.to_nat m) [0; 31; 28; 31; 30; 31; 30; 31; 31; 30; 31; 30; 31] 0.

Definition _days_before_month (y m : Z) : Z :=
  nth (Z.to_nat m) [0; 0; 31; 59; 90; 120; 151; 181; 212; 243; 273; 304; 334] 0
  + (if (2 <? m) && _is_leap y then 1 else 0).

Definition _ymd2ord (y m d : Z) : Z :=
  _days_before_year y + _days_before_month y m + d.

(** The local time of a datetime, in microseconds counted from the
    start of day 0 of the proleptic calendar. *)
Definition local_microseconds (d : datetime) : Z :=
  (((_ymd2ord (year d) (month d) (day d) * 24 + hour d) * 60 + minute d) * 60
   + second d) * 1000000 + microsecond d.

(** The instant of an aware datetime, in microseconds of UTC: what the
    subtraction of two aware datetimes compares. *)
Definition utc_microseconds (d : datetime) : Z :=
  local_microseconds d - utcoffset d.

(** [a - b] on two aware datetimes, as a [timedelta] in microseconds. *)
Definition sub (a b : Z) : Z := a - b.

(** [td.total_seconds()].  Python returns the binary64 nearest to this
    rational; the exact rational is kept here, which gives the same
    floor by 60 for every [timedelta] below [2 ^ 53] microseconds (285
    years). *)
Definition total_seconds (td : Z) : Q := Qmake td 1000000.

(** [x // 60] followed by [int(...)] *)
Definition floordiv_60 (x : Q) : Z := Qfloor (x / inject_Z 60).

(** [int((now - last_update_time).total_seconds() // 60)], on the two
    instants. *)
Definition minutes_since (last_update_time now : Z) : Z :=
  floordiv_60 (total_seconds (sub now last_update_time)).

(** *** The parser *)

Definition digit (s : string) : option (Z * string) :=
  match s with
  | String c t => if is_digit c then Some (code c - 48, t) else None
  | EmptyString => None
  end.

(** One literal character of the format; the expression is compiled
    with [re.IGNORECASE]. *)
Definition lit (lower upper : Z) (s : string) : option string :=
  match s with
  | String c t =>
      if (code c =? lower) || (code c =? upper) then Some t else None
  | EmptyString => None
  end.

(** A directive of one or two digits: the two-digit alternatives come
    first in the expression, the single digit last. *)
Definition one_or_two (ok2 : Z -> Z -> bool) (ok1 : Z -> bool) (s : string)
  : option (Z * string) :=
  match digit s with
  | Some (a, t) =>
      match digit t with
      | Some (b, t') =>
          if ok2 a b then Some (10 * a + b, t')
          else if ok1 a then Some (a, t) else None
      | None => if ok1 a then Some (a, t) else None
      end
  | None => None
  end.

(** [%Y]: four digits. *)
Definition dir_Y (s : string) : option (Z * string) :=
  match digit s with
  | Some (a, s1) =>
    match digit s1 with
    | Some (b, s2) =>
      match digit s2 with
      | Some (c, s3) =>
        match digit s3 with
        | Some (d, s4) => Some (((a * 10 + b) * 10 + c) * 10 + d, s4)
        | None => None
        end
      | None => None
      end
    | None => None
    end
  | None => None
  end.

(** [%m]: [1[0-2]|0[1-9]|[1-9]] *)
Definition dir_m : string -> option (Z * string) :=
  one_or_two (fun a b => ((a =? 1) && (b <=? 2)) || ((a =? 0) && (1 <=? b)))
             (fun a => 1 <=? a).

(** [%d]: [3[0-1]|[1-2]\d|0[1-9]|[1-9]| [1-9]] *)
Definition dir_d (s : string) : option (Z * string) :=
  match one_or_two
          (fun a b => ((a =? 3) && (b <=? 1)) || ((1 <=? a) && (a <=? 2))
                      || ((a =? 0) && (1 <=? b)))
          (fun a => 1 <=? a) s with
  | Some r => Some r
  | None =>
      match lit 32 32 s with
      | Some t =>
          match digit t with
          | Some (a, t') => if 1 <=? a then Some (a, t') else None
          | None => None
          end
      | None => None
      end
  end.

(** [%H]: [2[0-3]|[0-1]\d|\d] *)
Definition dir_H : string -> option (Z * string) :=
  one_or_two (fun a b => ((a =? 2) && (b <=? 3)) || (a <=? 1)) (fun _ => true).

(** [%M]: [[0-5]\d|\d] *)
Definition dir_M : string -> option (Z * string) :=
  one_or_two (fun a _ => a <=? 5) (fun _ => true).

(** [%S]: [6[0-1]|[0-5]\d|\d] *)
Definition dir_S : string -> option (Z * string) :=
  one_or_two (fun a b => ((a =? 6) && (b <=? 1)) || (a <=? 5)) (fun _ => true).

(** Up to [n] more digits of a fraction, each worth [w] and then a
    tenth of it: the digits are padded with zeros on the right. *)
Fixpoint frac_digits (n : nat) (w : Z) (s : string) : Z * string :=
  match n with
  | O => (0, s)
  | S n' =>
      match digit s with
      | Some (a, t) =>
          let '(v, rest) := frac_digits n' (w / 10) t in (a * w + v, rest)
      | None => (0, s)
      end
  end.

(** [%f]: [[0-9]{1,6}], in microseconds. *)
Definition dir_f (s : string) : option (Z * string) :=
  match digit s with
  | Some (a, t) =>
      let '(v, rest) := frac_digits 5 10000 t in Some (a * 100000 + v, rest)
  | None => None
  end.

Definition two_digits (ok : Z -> bool) (s : string) : option (Z * string) :=
  match digit s with
  | Some (a, t) =>
      match digit t with
      | Some (b, t') => if ok a then Some (10 * a + b, t') else None
      | None => None
      end
  | None => None
  end.

Definition opt_colon (s : string) : bool * string :=
  match lit 58 58 s with
  | Some t => (true, t)
  | None => (false, s)
  end.

(** The seconds of an offset, [(:?[0-5]\d(\.\d{1,6})?)?]: whether a
    colon came first, the seconds, the microseconds and the rest; the
    group is skipped when it does not match. *)
Definition offset_seconds (s : string) : option (bool * Z * Z) * string :=
  let '(colon, t) := opt_colon s in
  match two_digits (fun a => a <=? 5) t with
  | Some (ss, t') =>
      match lit 46 46 t' with
      | Some t'' =>
          match dir_f t'' with
          | Some (us, rest) => (Some (colon, ss, us), rest)
          | None => (Some (colon, ss, 0), t')
          end
      | None => (Some (colon, ss, 0), t')
      end
  | None => (None, s)
  end.

(** [%z]: [[+-]\d\d:?[0-5]\d(:?[0-5]\d(\.\d{1,6})?)?|Z], then the
    arithmetic [_strptime] does on the text matched; the offset in
    microseconds, [None] when the expression does not match and an
    error when the two colons disagree. *)
Definition dir_z (s : string) : option (result Z * string) :=
  match s with
  | String c t =>
      if code c =? 90 then Some (Ok 0, t)
      else if (code c =? 43) || (code c =? 45) then
        match two_digits (fun _ => true) t with
        | Some (hh, t1) =>
            let '(colon1, t2) := opt_colon t1 in
            match two_digits (fun a => a <=? 5) t2 with
            | Some (mm, t3) =>
                let '(secs, rest) := offset_seconds t3 in
                let sign := if code c =? 45 then -1 else 1 in
                match secs with
                | None =>
                    Some (Ok (sign * ((hh * 3600 + mm * 60) * 1000000)), rest)
                | Some (colon2, ss, us) =>
                    if Bool.eqb colon1 colon2 then
                      Some (Ok (sign * ((hh * 3600 + mm * 60 + ss) * 1000000
                                        + us)), rest)
                    else
                      Some (raise ValueError "Inconsistent use of : in offset",
                            rest)
                end
            | None => None
            end
        | None => None
        end
      else None
  | EmptyString => None
  end.

Definition no_match {A} : result A :=
  raise ValueError "time data does not match format".

(** The date and time up to the fraction, [%Y-%m-%dT%H:%M:%S.%f]: the
    seven fields and what follows them. *)
Definition parse_local (s : string)
  : option (Z * Z * Z * Z * Z * Z * Z * string) :=
  match dir_Y s with | None => None | Some (yy, s) =>
  match lit 45 45 s with | None => None | Some s =>
  match dir_m s with | None => None | Some (mo, s) =>
  match lit 45 45 s with | None => None | Some s =>
  match dir_d s with | None => None | Some (dd, s) =>
  match lit 116 84 s with | None => None | Some s =>
  match dir_H s with | None => None | Some (hh, s) =>
  match lit 58 58 s with | None => None | Some s =>
  match dir_M s with | None => None | Some (mi, s) =>
  match lit 58 58 s with | None => None | Some s =>
  match dir_S s with | None => None | Some (ss, s) =>
  match lit 46 46 s with | None => None | Some s =>
  match dir_f s with | None => None | Some (us, s) =>
  Some (yy, mo, dd, hh, mi, ss, us, s)
  end end end end end end end end end end end end end.

Definition day_microseconds : Z := 24 * 3600 * 1000000.

(** [datetime.strptime(date_string, datetime_format)] *)
Definition strptime (date_string : string) : result datetime :=
  match parse_local date_string with
  | None => no_match
  | Some (yy, mo, dd, hh, mi, ss, us, rest) =>
      match dir_z rest with
      | None => no_match
      | Some (off, rest') =>
          if negb (is_empty rest') then
            raise ValueError "unconverted data remains"
          else
            do off <- off;
            if negb ((1 <=? yy) && (dd <=? _days_in_month yy mo)) then
              raise ValueError "day is out of range for month"
            else if 59 <? ss then
              raise ValueError "second must be in 0..59"
            else if negb ((- day_microseconds <? off)
                          && (off <? day_microseconds)) then
              raise ValueError "offset must be strictly between -24h and 24h"
            else
              Ok {| year := yy; month := mo; day := dd;
                    hour := hh; minute := mi; second := ss; microsecond := us;
                    utcoffset := off |}
      end
  end.

End DateTime.

(** ** [hashlib.sha1] *)

Module Sha1.

Definition mask : Z := 4294967295.

Definition w32 (x : Z) : Z := Z.land x mask.

Definition rotl (n x : Z) : Z :=
  w32 (Z.lor (Z.shiftl x n) (Z.shiftr x (32 - n))).

Definition bytes (s : string) : list Z :=
  map PyStr.code (list_ascii_of_string s).

(** The bit length, eight bytes, most significant first. *)
Definition be64 (n : Z) : list Z :=
  map (fun i => Z.land (Z.shiftr n (8 * i)) 255) [7; 6; 5; 4; 3; 2; 1; 0].

Definition pad (msg : list Z) : list Z :=
  let len := Z.of_nat (length msg) in
  msg ++ [128] ++ repeat 0 (Z.to_nat ((55 - len) mod 64)) ++ be64 (8 * len).

Fixpoint words (l : list Z) : list Z :=
  match l with
  | a :: b :: c :: d :: tl =>
      Z.lor (Z.shiftl a 24) (Z.lor (Z.shiftl b 16) (Z.lor (Z.shiftl c 8) d))
      :: words tl
  | _ => []
  end.

(** The message schedule, newest word first. *)
Fixpoint extend (n : nat) (w : list Z) : list Z :=
  match n with
  | O => w
  | S n' =>
      let x := Z.lxor (Z.lxor (nth 2 w 0) (nth 7 w 0))
                      (Z.lxor (nth 13 w 0) (nth 15 w 0)) in
      extend n' (rotl 1 x :: w)
  end.

Definition schedule (block : list Z) : list Z :=
  rev (extend 64 (rev block)).

Definition state : Type := Z * Z * Z * Z * Z.

Definition round (i : Z) (st : state) (w : Z) : state :=
  let '(a, b, c, d, e) := st in
  let '(f, k) :=
    if i <? 20 then
      (Z.lor (Z.land b c) (Z.land (Z.lxor b mask) d), 1518500249)
    else if i <? 40 then (Z.lxor b (Z.lxor c d), 1859775393)
    else if i <? 60 then
      (Z.lor (Z.land b c) (Z.lor (Z.land b d) (Z.land c d)), 2400959708)
    else (Z.lxor b (Z.lxor c d), 3395469782) in
  (w32 (rotl 5 a + f + e + k + w), a, rotl 30 b, c, d).

Fixpoint rounds (i : Z) (st : state) (ws : list Z) : state :=
  match ws with
  | [] => st
  | w :: tl => rounds (i + 1) (round i st w) tl
  end.

Definition compress (h : state) (block : list Z) : state :=
  let '(a, b, c, d, e) := rounds 0 h (schedule block) in
  let '(h0, h1, h2, h3, h4) := h in
  (w32 (h0 + a), w32 (h1 + b), w32 (h2 + c), w32 (h3 + d), w32 (h4 + e)).

(** The blocks of sixteen words, at most [n] of them. *)
Fixpoint blocks (n : nat) (h : state) (ws : list Z) : state :=
  match n, ws with
  | S n', _ :: _ => blocks n' (compress h (firstn 16 ws)) (skipn 16 ws)
  | _, _ => h
  end.

Definition initial : state :=
  (1732584193, 4023233417, 2562383102, 271733878, 3285377520).

Definition hex_digit (x : Z) : ascii :=
  ascii_of_N (Z.to_N (if x <? 10 then 48 + x else 87 + x)).

Definition hex32 (x : Z) : string :=
  fold_right (fun i acc => String (hex_digit (Z.land (Z.shiftr x (4 * i)) 15)) acc)
             EmptyString [7; 6; 5; 4; 3; 2; 1; 0].

(** [hashlib.sha1(s.encode()).hexdigest()] *)
Definition hexdigest (s : string) : string :=
  let ws := words (pad (bytes s)) in
  let '(a, b, c, d, e) := blocks (length ws) initial ws in
  hex32 a +:+ hex32 b +:+ hex32 c +:+ hex32 d +:+ hex32 e.

End Sha1.

(** ** The values [json.loads] returns *)

Module Json.

Inductive json :=
| JNull
| JBool (b : bool)
| JInt (z : Z)
| JFloat (f : float)
| JStr (s : string)
| JArr (l : list json)
| JObj (items : list (string * json)).

(** A dict built from the pairs in order: the last pair of a key wins. *)
Fixpoint dict_get (k : string) (items : list (string * json)) : option json :=
  match items with
  | [] => None
  | (k', v) :: tl =>
      match dict_get k tl with
      | Some r => Some r
      | None => if String.eqb k k' then Some v else None
      end
  end.

(** The continuation bytes at the head of [s]. *)
Fixpoint continuation (s : string) : string :=
  match s with
  | String c t =>
      if (128 <=? PyStr.code c) && (PyStr.code c <? 192)
      then String c (continuation t) else EmptyString
  | EmptyString => EmptyString
  end.

(** [data[0]] *)
Definition first (data : json) : result json :=
  match data with
  | JArr (x :: _) => Ok x
  | JArr [] => raise IndexError "list index out of range"
  | JStr (String c t) => Ok (JStr (String c (continuation t)))
  | JStr EmptyString => raise IndexError "string index out of range"
  | JObj _ => raise KeyError "0"
  | _ => raise TypeError "object is not subscriptable"
  end.

(** [obj[key]] for a string key. *)
Definition item (obj : json) (key : string) : result json :=
  match obj with
  | JObj items =>
      match dict_get key items with
      | Some v => Ok v
      | None => raise KeyError key
      end
  | JArr _ => raise TypeError "list indices must be integers or slices, not str"
  | JStr _ => raise TypeError "string indices must be integers, not 'str'"
  | _ => raise TypeError "object is not subscriptable"
  end.

End Json.

(** ** The worker thread, [GlucoseMonitorWorker] *)

Module GlucoseMonitorWorker.
Import Json.

Record worker := {
  _url : option string;
  running : bool
}.

(** [__init__] *)
Definition init : worker := {| _url := None; running := true |}.

Definition set_url (host secret : string) (w : worker) : worker :=
  let secret_hash := Sha1.hexdigest secret in
  {| _url := Some (host +:+ "/api/v1/entries/current.json?secret="
                     +:+ secret_hash);
     running := running w |}.

(** [stop], up to the [wait()] for the thread. *)
Definition stop (w : worker) : worker :=
  {| _url := _url w; running := false |}.

(** The two signals, [pyqtSignal(int, float, str, str)] and
    [pyqtSignal(str)]. *)
Inductive signal :=
| status_updated (sgv : Z) (delta : float) (date_string direction : string)
| error_signal (message : string).

(** What the network answers to one GET: no answer, with the exception
    [urlopen] raises for it, or the final response, with its status and
    the outcome of [json.loads(response.read().decode("utf-8"))] on its
    body. *)
Inductive http :=
| Failed (e : exn)
| Response (status : Z) (body : result json).

(** [urllib.request.urlopen(url)]: the default opener hands back the
    responses with a status from 200 to 299 and raises [HTTPError] for
    every other one. *)
Definition urlopen (url : option string) (net : string -> http)
  : result (Z * result json) :=
  match url with
  | None => raise ValueError "unknown url type: 'None'"
  | Some u =>
      match net u with
      | Failed e => Raise e
      | Response status body =>
          if (200 <=? status) && (status <? 300) then Ok (status, body)
          else raise HTTPError ("HTTP Error " +:+ PyStr.of_int status)
      end
  end.

(** The conversions PyQt applies to the arguments of [emit], by the
    types the signal declares. *)
Definition as_int (v : json) : result Z :=
  match v with
  | JInt z =>
      if (-2147483648 <=? z) && (z <=? 2147483647) then Ok z
      else raise OverflowError "argument 1 overflowed"
  | JBool b => Ok (if b then 1 else 0)
  | _ => raise TypeError "argument 1 has unexpected type"
  end.

Definition as_float (v : json) : result float :=
  match v with
  | JFloat f => Ok f
  | JInt z => PyFloat.of_int z
  | JBool b => PyFloat.of_int (if b then 1 else 0)
  | _ => raise TypeError "argument 2 has unexpected type"
  end.

Definition as_str (v : json) : result string :=
  match v with
  | JStr s => Ok s
  | JNull => Ok EmptyString
  | _ => raise TypeError "argument has unexpected type"
  end.

(** The body of the [try]: it ends with the one [status_updated.emit]. *)
Definition fetch (w : worker) (net : string -> http) : result signal :=
  do resp <- urlopen (_url w) net;
  do data <- snd resp;
  let status := fst resp in
  if negb (status =? 200) then
    raise RuntimeError
          ("Response status code should be 200 but got " +:+ PyStr.of_int status)
  else
    do resp_json <- first data;
    do sgv <- item resp_json "sgv";
    do delta <- item resp_json "delta";
    do date_string <- item resp_json "dateString";
    do direction <- item resp_json "direction";
    do a <- as_int sgv;
    do b <- as_float delta;
    do c <- as_str date_string;
    do d <- as_str direction;
    Ok (status_updated a b c d).

(** [run]: the signals one invocation emits, in order. *)
Definition run (w : worker) (net : string -> http) : list signal :=
  if negb (running w) then []
  else
    match fetch w net with
    | Ok s => [s]
    | Raise e =>
        if is_RuntimeError e then [error_signal (exn_arg e)]
        else [error_signal "Error while loading response"]
    end.

End GlucoseMonitorWorker.

(** ** The widget, [GlucoseMonitor] *)

Module GlucoseMonitor.
Import PyStr Fmt.

Definition update_interval_in_milliseconds : Z := 1 * 60 * 1000.

(** The one format [DateTime.strptime] is the parser of. *)
Definition datetime_format : string := "%Y-%m-%dT%H:%M:%S.%f%z".

Definition direction_icons_mapping : gmap string string :=
  list_to_map
    [("double_up", "DoubleUp"); ("single_up", "SingleUp");
     ("forty_five_up", "FortyFiveUp"); ("flat", "Flat");
     ("forty_five_down", "FortyFiveDown"); ("single_down", "SingleDown");
     ("double_down", "DoubleDown")].

(** A number handed to a converter: the handler calls it once on an
    int and once on a float. *)
Inductive num :=
| Int (z : Z)
| Float (f : float).

(** [lambda sgv: str(round(sgv))] *)
Definition mg_dl (sgv : num) : result string :=
  match sgv with
  | Int z => Ok (of_int z)
  | Float f => do n <- PyFloat.round f; Ok (of_int n)
  end.

(** [lambda sgv: f"{sgv / 18:.1f}"] *)
Definition mmol_l (sgv : num) : result string :=
  match sgv with
  | Int z => do q <- PyFloat.int_truediv z 18; Ok (PyFloat.format_1f q)
  | Float f => Ok (PyFloat.format_1f (PyFloat.div f PyFloat.eighteen))
  end.

Definition _available_sgv_measurement_units
  : gmap string (num -> result string) :=
  <["mmol/l" := mmol_l]> (<["mg/dl" := mg_dl]> ∅).

(** An entry of [self._widgets]: a [QLabel] with its text, or a widget
    of another class. *)
Inductive qwidget :=
| QLabel (text : string)
| QOther.

(** The object: what [__init__] stores, the label widgets, the tooltip
    of the container as [set_tooltip] last set it, and the messages the
    toast notifier has shown, oldest first. *)
Record monitor := {
  _label_content : string;
  _tooltip : string;
  _host : string;
  _secret : option string;
  _direction_icons : gmap string string;
  _sgv_measurement_units : string;
  _status_data : gmap string value;
  _widgets : list qwidget;
  tooltip_text : option string;
  toasts : list string
}.

Definition with_status_data (d : gmap string value) (self : monitor) : monitor :=
  {| _label_content := _label_content self; _tooltip := _tooltip self;
     _host := _host self; _secret := _secret self;
     _direction_icons := _direction_icons self;
     _sgv_measurement_units := _sgv_measurement_units self;
     _status_data := d; _widgets := _widgets self;
     tooltip_text := tooltip_text self; toasts := toasts self |}.

Definition with_widgets (w : list qwidget) (self : monitor) : monitor :=
  {| _label_content := _label_content self; _tooltip := _tooltip self;
     _host := _host self; _secret := _secret self;
     _direction_icons := _direction_icons self;
     _sgv_measurement_units := _sgv_measurement_units self;
     _status_data := _status_data self; _widgets := w;
     tooltip_text := tooltip_text self; toasts := toasts self |}.

Definition with_tooltip_text (t : option string) (self : monitor) : monitor :=
  {| _label_content := _label_content self; _tooltip := _tooltip self;
     _host := _host self; _secret := _secret self;
     _direction_icons := _direction_icons self;
     _sgv_measurement_units := _sgv_measurement_units self;
     _status_data := _status_data self; _widgets := _widgets self;
     tooltip_text := t; toasts := toasts self |}.

Definition with_toasts (t : list string) (self : monitor) : monitor :=
  {| _label_content := _label_content self; _tooltip := _tooltip self;
     _host := _host self; _secret := _secret self;
     _direction_icons := _direction_icons self;
     _sgv_measurement_units := _sgv_measurement_units self;
     _status_data := _status_data self; _widgets := _widgets self;
     tooltip_text := tooltip_text self; toasts := t |}.

(** *** The methods, as computations on the object

    A method maps the object to the object it leaves and to [Ok] or the
    exception that escapes it; [None] stands for a template outside the
    fragment of [Fmt.format_map]. *)
Definition M (A : Type) : Type := monitor -> option (monitor * result A).

Definition ret {A} (a : A) : M A := fun self => Some (self, Ok a).

Definition bindM {A B} (c : M A) (k : A -> M B) : M B :=
  fun self =>
    match c self with
    | Some (self', Ok a) => k a self'
    | Some (self', Raise e) => Some (self', Raise e)
    | None => None
    end.

Definition lift {A} (r : result A) : M A := fun self => Some (self, r).

Definition lift_fragment {A} (r : option (result A)) : M A :=
  fun self =>
    match r with
    | Some r => Some (self, r)
    | None => None
    end.

Definition get {A} (f : monitor -> A) : M A := fun self => Some (self, Ok (f self)).

Definition modify (f : monitor -> monitor) : M unit :=
  fun self => Some (f self, Ok tt).

Notation "'doM' x <- c1 ; c2" := (bindM c1 (fun x => c2))
  (at level 10, x name, c1 at level 100, c2 at level 200).

(** *** [__init__], the part that fixes the secret, the icons and the URL *)

(** [secret != "env" and secret or os.getenv(secret_env_name)]: [and]
    gives [secret] when the comparison holds and [False] otherwise, [or]
    keeps a left operand that is true, and the empty string is false. *)
Definition resolve_secret (secret secret_env_name : string)
           (getenv : string -> option string) : option string :=
  let left := if negb (String.eqb secret "env") then Some secret else None in
  match left with
  | Some s => if is_empty s then getenv secret_env_name else Some s
  | None => getenv secret_env_name
  end.

(** [{self.direction_icons_mapping[key]: value for key, value in
    direction_icons.items()}] *)
Fixpoint build_direction_icons (items : list (string * string))
         (acc : gmap string string) : result (gmap string string) :=
  match items with
  | [] => Ok acc
  | (key, value) :: tl =>
      match direction_icons_mapping !! key with
      | Some code => build_direction_icons tl (<[code := value]> acc)
      | None => raise KeyError key
      end
  end.

(** [self._worker.set_url(self._host, self._secret)] on the fresh
    worker: [None] has no [encode]. *)
Definition init_worker (host : string) (secret : option string)
  : result GlucoseMonitorWorker.worker :=
  match secret with
  | Some s => Ok (GlucoseMonitorWorker.set_url host s GlucoseMonitorWorker.init)
  | None => raise AttributeError "'NoneType' object has no attribute 'encode'"
  end.

(** [__init__]: [built] is the list of widgets that
    [build_widget_label] of [core/utils/utilities.py], which is not among
    the sources, leaves in [self._widgets]; the layout and the callbacks
    are left out. *)
Definition init (label tooltip host secret secret_env_name : string)
           (direction_icons : list (string * string))
           (sgv_measurement_units : string)
           (getenv : string -> option string) (built : list qwidget)
  : result (monitor * GlucoseMonitorWorker.worker) :=
  let the_secret := resolve_secret secret secret_env_name getenv in
  do icons <- build_direction_icons direction_icons ∅;
  do worker <- init_worker host the_secret;
  Ok ({| _label_content := label; _tooltip := tooltip; _host := host;
         _secret := the_secret; _direction_icons := icons;
         _sgv_measurement_units := sgv_measurement_units;
         _status_data := ∅; _widgets := built;
         tooltip_text := None; toasts := [] |}, worker).

(** *** The handlers *)

(** Modelled from the spec: [ToastNotifier().show(icon, title, message)]
    of [core/utils/utilities.py], which is not among the sources.  It is
    the error sink, which receives one message string per failure; the
    messages are kept in [toasts]. *)
Definition toaster_show (message : string) : M unit :=
  modify (fun self => with_toasts (toasts self ++ [message]) self).

Definition _handle_error_signal (message : string) : M unit :=
  toaster_show message.

Definition is_QLabel (w : option qwidget) : bool :=
  match w with
  | Some (QLabel _) => true
  | _ => false
  end.

(** [active_widgets[i].setText(text)] *)
Definition setText (i : nat) (text : string) : M unit :=
  modify (fun self => with_widgets (<[i := QLabel text]> (_widgets self)) self).

(** Modelled from the spec: [set_tooltip(widget, text)] of
    [core/utils/tooltip.py], which is not among the sources.  It is the
    part of the display sink that receives the substituted tooltip
    string; the string is kept in [tooltip_text]. *)
Definition set_tooltip (text : string) : M unit :=
  modify (with_tooltip_text (Some text)).

(** The body of the loop of [_update_label], from [widget_index] to
    the index the next part starts with. *)
Definition update_part (part : string) (widget_index : nat) : M nat :=
  let part := strip part in
  doM active_widgets <- get _widgets;
  if is_empty part
     || (length active_widgets <=? widget_index)%nat
     || negb (is_QLabel (active_widgets !! widget_index))
  then ret widget_index
  else if contains "<span" part && contains "</span>" part then
    let icon := strip (Re.sub part) in
    doM _ <- setText widget_index icon;
    ret (S widget_index)
  else
    doM data <- get _status_data;
    doM formatted_text <- lift_fragment (format_map part data);
    doM _ <- setText widget_index formatted_text;
    ret (S widget_index).

Fixpoint update_parts (label_parts : list string) (widget_index : nat) : M nat :=
  match label_parts with
  | [] => ret widget_index
  | part :: tl =>
      doM i <- update_part part widget_index;
      update_parts tl i
  end.

Definition label_parts_of (label_content : string) : list string :=
  List.filter (fun s => negb (is_empty s)) (Re.split label_content).

Definition _update_label : M unit :=
  doM active_label_content <- get _label_content;
  let label_parts := label_parts_of active_label_content in
  doM _ <- update_parts label_parts 0;
  doM tooltip <- get _tooltip;
  if negb (is_empty tooltip) then
    doM data <- get _status_data;
    doM text <- lift_fragment (format_map tooltip data);
    set_tooltip text
  else ret tt.

(** Calling what [dict.get] returned. *)
Definition call (f : option (num -> result string)) (x : num) : result string :=
  match f with
  | Some g => g x
  | None => raise TypeError "'NoneType' object is not callable"
  end.

Definition getitem (d : gmap string string) (k : string) : result string :=
  match d !! k with
  | Some v => Ok v
  | None => raise KeyError k
  end.

Definition status_data (sgv sgv_delta : string) (delta_time_in_minutes : Z)
           (direction : string) : gmap string value :=
  <["direction" := VStr direction]>
    (<["delta_time_in_minutes" := VInt delta_time_in_minutes]>
       (<["sgv_delta" := VStr sgv_delta]> (<["sgv" := VStr sgv]> ∅))).

(** [_handle_status_update]; [now] is the instant
    [datetime.datetime.now(tz=datetime.timezone.utc)] returns, in
    microseconds as [DateTime.utc_microseconds] counts them. *)
Definition _handle_status_update (now : Z) (sgv : Z) (sgv_delta : float)
           (date_string direction : string) : M unit :=
  doM last_update_time <- lift (DateTime.strptime date_string);
  let delta_time_in_minutes :=
    DateTime.minutes_since (DateTime.utc_microseconds last_update_time) now in
  doM icons <- get _direction_icons;
  doM direction <- lift (getitem icons direction);
  doM units <- get _sgv_measurement_units;
  let convert_sgv := _available_sgv_measurement_units !! units in
  doM _ <- match convert_sgv with
           | None => _handle_error_signal "Wrong measurement units"
           | Some _ => ret tt
           end;
  doM sgv <- lift (call convert_sgv (Int sgv));
  doM sgv_delta <- lift (call convert_sgv (Float sgv_delta));
  doM _ <- modify (with_status_data
                     (status_data sgv sgv_delta delta_time_in_minutes direction));
  _update_label.

End GlucoseMonitor.

(** ** The timer and the worker thread

  [__init__] connects [QTimer.timeout] to [self._worker.start] and
  calls [self._worker.start()] once itself.  [QThread.start] begins the
  thread, which executes [run], and does nothing while the thread is
  running. *)

Module Scheduler.
Import GlucoseMonitorWorker.

(** [thread] is [None] while the thread is not running and [Some w]
    while it executes [run] on the worker [w] as it was on entry;
    [issued] and [answered] count the GET requests begun and ended, and
    [emitted] collects the signals, oldest first. *)
Record state := {
  the_worker : worker;
  thread : option worker;
  issued : nat;
  answered : nat;
  emitted : list signal
}.

(** The GET requests on their way. *)
Definition in_flight (s : state) : nat := (issued s - answered s)%nat.

Definition fetching (s : state) : bool :=
  match thread s with
  | Some w => running w
  | None => false
  end.

(** [QThread.start()], the slot of the timer. *)
Definition start (s : state) : state :=
  match thread s with
  | Some _ => s
  | None =>
      {| the_worker := the_worker s;
         thread := Some (the_worker s);
         issued := if running (the_worker s) then S (issued s) else issued s;
         answered := answered s;
         emitted := emitted s |}
  end.

(** [run] returns, with [net] the answer of the network to its request. *)
Definition finish (net : string -> http) (w : worker) (s : state) : state :=
  {| the_worker := the_worker s;
     thread := None;
     issued := issued s;
     answered := if running w then S (answered s) else answered s;
     emitted := emitted s ++ run w net |}.

(** The flag of [stop]; the wait for the thread is the [Return] that
    follows. *)
Definition set_stopped (s : state) : state :=
  {| the_worker := stop (the_worker s);
     thread := thread s;
     issued := issued s;
     answered := answered s;
     emitted := emitted s |}.

Inductive event :=
| Trigger
| Return (net : string -> http)
| Stop.

Inductive step : state -> event -> state -> Prop :=
| step_trigger s : step s Trigger (start s)
| step_return s w net :
    thread s = Some w -> step s (Return net) (finish net w s)
| step_stop s : step s Stop (set_stopped s).

(** The state [__init__] leaves: the timer armed and the first
    [start()] done. *)
Definition initial (w : worker) : state :=
  start {| the_worker := w; thread := None; issued := 0; answered := 0;
           emitted := [] |}.

Inductive reachable (w : worker) : state -> Prop :=
| reach_init : reachable w (initial w)
| reach_step s e s' : reachable w s -> step s e s' -> reachable w s'.

End Scheduler.

(** ** The defaults of [core/validation/widgets/yasb/glucose_monitor.py] *)

Module Defaults.

Definition label : string := "🩸{sgv}{direction}".
Definition tooltip : string := "({sgv_delta}) {delta_time_in_minutes} min".
Definition host : string := EmptyString.
Definition secret : string := EmptyString.
Definition secret_env_name : string := EmptyString.
Definition direction_icons : list (string * string) :=
  [("double_up", "⬆️⬆️"); ("single_up", "⬆️"); ("forty_five_up", "↗️");
   ("flat", "➡️"); ("forty_five_down", "↘️"); ("single_down", "⬇️");
   ("double_down", "⬇️⬇️")].
Definition sgv_measurement_units : string := "mg/dl".

End Defaults.

(** ** Notions the statements below use *)

Module Spec.
Import PyStr Json GlucoseMonitorWorker GlucoseMonitor.

(** The seven trend codes. *)
Definition known_directions : list string :=
  ["DoubleUp"; "SingleUp"; "FortyFiveUp"; "Flat"; "FortyFiveDown";
   "SingleDown"; "DoubleDown"].

(** A [status_updated] with these arguments carries what the first
    element of the array in a 200 response holds. *)
Definition reads (w : worker) (net : string -> http)
           (a : Z) (b : float) (c d : string) : Prop :=
  exists u items rest sgv delta date_string direction,
    _url w = Some u
    /\ net u = Response 200 (Ok (JArr (JObj items :: rest)))
    /\ dict_get "sgv" items = Some sgv /\ as_int sgv = Ok a
    /\ dict_get "delta" items = Some delta /\ as_float delta = Ok b
    /\ dict_get "dateString" items = Some date_string
    /\ as_str date_string = Ok c
    /\ dict_get "direction" items = Some direction
    /\ as_str direction = Ok d.

(** Literal text of a template: no brace in it. *)
Fixpoint plain_text (s : string) : bool :=
  match s with
  | EmptyString => true
  | String c t =>
      negb (Fmt.is_char 123 c) && negb (Fmt.is_char 125 c) && plain_text t
  end.

(** A character a plain field name may hold. *)
Definition name_char (c : ascii) : bool :=
  negb (Fmt.is_char 123 c || Fmt.is_char 125 c || Fmt.is_char 91 c
        || Fmt.is_char 58 c || Fmt.is_char 33 c).

Fixpoint name_chars (s : string) : bool :=
  match s with
  | EmptyString => true
  | String c t => name_char c && name_chars t
  end.

(** A field name of the modelled fragment that is a key, not a
    position. *)
Definition plain_name (s : string) : bool :=
  name_chars s && negb (is_empty s) && negb (all_digits s)
  && negb (has_char "."%char s) && all_ascii s.

(** The nearest integer, a tie going away from zero. *)
Definition round_half_away (q : Q) : Z :=
  if Qle_bool 0 q then Qfloor (q + (1 # 2)) else - Qfloor (- q + (1 # 2)).

(** The number of microseconds in [n] seconds. *)
Definition seconds (n : Z) : Z := n * 1000000.

(** What a step of the loop of [_update_label] that starts at label
    [i] may change: the labels from [i] up to the index it returns, and
    nothing when it raises. *)
Definition touches (i : nat) (self self' : monitor) (r : result nat) : Prop :=
  self' = with_widgets (_widgets self') self
  /\ length (_widgets self') = length (_widgets self)
  /\ match r with
     | Ok j =>
         (i <= j)%nat
         /\ forall k, (k < i \/ j <= k)%nat ->
                      _widgets self' !! k = _widgets self !! k
     | Raise _ => self' = self
     end.

End Spec.

(** ** A widget to evaluate the handlers on *)

Module Scenario.
Import GlucoseMonitor.

Definition host : string := "http://cgm.example".

Definition secret : string := "s3cret".

(** The icon table [__init__] builds from the default icons. *)
Definition icons : gmap string string :=
  match build_direction_icons Defaults.direction_icons ∅ with
  | Ok d => d
  | Raise _ => ∅
  end.

(** The widget after [__init__], its labels still showing [old]. *)
Definition widget (label tooltip units : string) (old : list string) : monitor :=
  {| _label_content := label; _tooltip := tooltip; _host := host;
     _secret := Some secret; _direction_icons := icons;
     _sgv_measurement_units := units;
     _status_data := ∅; _widgets := map QLabel old;
     tooltip_text := None; toasts := [] |}.

Definition worker : GlucoseMonitorWorker.worker :=
  GlucoseMonitorWorker.set_url host secret GlucoseMonitorWorker.init.

(** A network that gives the same answer to every request. *)
Definition answers (h : GlucoseMonitorWorker.http) : string -> GlucoseMonitorWorker.http :=
  fun _ => h.

Definition date_string : string := "2024-01-01T00:00:00.000000+0000".

(** What [strptime] makes of [date_string]. *)
Definition reading_time : DateTime.datetime :=
  {| DateTime.year := 2024; DateTime.month := 1; DateTime.day := 1;
     DateTime.hour := 0; DateTime.minute := 0; DateTime.second := 0;
     DateTime.microsecond := 0; DateTime.utcoffset := 0 |}.

(** The same timestamp with the offset left out. *)
Definition date_string_without_offset : string := "2024-01-01T00:00:00.000000".

(** The body of scenario A, with the direction left open. *)
Definition reading (direction : string) : Json.json :=
  Json.JArr
    [Json.JObj [("sgv", Json.JInt 120); ("delta", Json.JInt (-3));
                ("dateString", Json.JStr date_string);
                ("direction", Json.JStr direction)]].

(** 2024-01-01T00:02:00Z *)
Definition now : Z :=
  DateTime.utc_microseconds
    {| DateTime.year := 2024; DateTime.month := 1; DateTime.day := 1;
       DateTime.hour := 0; DateTime.minute := 2; DateTime.second := 0;
       DateTime.microsecond := 0; DateTime.utcoffset := 0 |}.

(** The float -3.0. *)
Definition minus_three : float := S754_finite true 6755399441055744 (-51).

(** The floats 2.5 and -0.25. *)
Definition two_and_a_half : float := S754_finite false 5 (-1).

Definition minus_a_quarter : float := S754_finite true 1 (-2).

(** The mapping of scenario A. *)
Definition rendered : gmap string Fmt.value :=
  status_data "120" "-3" 2 "➡️".

(** A widget of three labels whose last text segment names a field
    the mapping does not have, after a successful poll. *)
Definition stale : monitor :=
  with_status_data rendered
    (widget "{sgv}<span>I</span>{glucose}" Defaults.tooltip "mg/dl"
            ["a"; "b"; "c"]).

(** The same widget with two labels only: the third segment has no
    label to go to. *)
Definition stale_short : monitor :=
  with_status_data rendered
    (widget "{sgv}<span>I</span>{glucose}" Defaults.tooltip "mg/dl" ["a"; "b"]).

End Scenario.

(** ** Notions of the further statements *)

Module SpecMore.
Import PyStr Json GlucoseMonitorWorker GlucoseMonitor.

(** The four keys [run] reads from the first element. *)
Definition required_keys : list string :=
  ["sgv"; "delta"; "dateString"; "direction"].

(** The text of the [RuntimeError] of [run]. *)
Definition bad_status_message (status : Z) : string :=
  "Response status code should be 200 but got " +:+ of_int status.

(** The text [run] emits for any other exception. *)
Definition generic_message : string := "Error while loading response".

(** A parsed body that is an array whose first element is an object. *)
Definition starts_with_object (data : json) : bool :=
  match data with
  | JArr (JObj _ :: _) => true
  | _ => false
  end.

Fixpoint all_chars (p : ascii -> bool) (s : string) : bool :=
  match s with
  | EmptyString => true
  | String c t => p c && all_chars p t
  end.

(** Text without [<]. *)
Definition no_lt (s : string) : bool :=
  all_chars (fun c => negb (code c =? 60)) s.

(** What stands between [<span] and the [>] that closes the tag:
    neither [>] nor a line feed. *)
Definition attr_chars (s : string) : bool :=
  all_chars (fun c => Re.dot c && negb (code c =? 62)) s.

(** What stands between the two tags of an icon: neither [<] nor a
    line feed. *)
Definition inner_chars (s : string) : bool :=
  all_chars (fun c => Re.dot c && negb (code c =? 60)) s.

(** [<span attrs>inner</span>], followed by [rest]. *)
Definition span_then (attrs inner rest : string) : string :=
  "<span" +:+ attrs +:+ ">" +:+ inner +:+ "</span>" +:+ rest.

Definition span (attrs inner : string) : string :=
  span_then attrs inner EmptyString.

(** All the pieces of a split put together again. *)
Fixpoint concat (l : list string) : string :=
  match l with
  | [] => EmptyString
  | h :: tl => h +:+ concat tl
  end.

Definition is_label (w : qwidget) : bool :=
  match w with
  | QLabel _ => true
  | QOther => false
  end.

(** Which widgets are labels, position by position. *)
Definition shape (ws : list qwidget) : list bool := is_label <$> ws.

(** A lowercase hexadecimal digit. *)
Definition is_hex (c : ascii) : bool :=
  ((48 <=? code c) && (code c <=? 57)) || ((97 <=? code c) && (code c <=? 102)).

(** The path and the query every request URL carries after the host. *)
Definition entries_path : string := "/api/v1/entries/current.json?secret=".

(** A run of the timer, the thread and [stop]: the events in order. *)
Inductive steps : Scheduler.state -> list Scheduler.event -> Scheduler.state -> Prop :=
| steps_nil s : steps s [] s
| steps_cons s e s1 es s2 :
    Scheduler.step s e s1 -> steps s1 es s2 -> steps s (e :: es) s2.

(** The seven keys of [direction_icons] in the configuration. *)
Definition icon_keys : list string :=
  ["double_up"; "single_up"; "forty_five_up"; "flat"; "forty_five_down";
   "single_down"; "double_down"].

End SpecMore.

(** * Properties *)

(** ** The model on concrete inputs *)

Module Checks.
Import GlucoseMonitor.

Example of_int_examples :
  PyStr.of_int (-3) = "-3" /\ PyStr.of_int 0 = "0" /\ PyStr.of_int 120 = "120".
Proof. repeat split; reflexivity. Qed.

Example strip_example : PyStr.strip "  a b  " = "a b".
Proof. reflexivity. Qed.

Example split_example :
  Re.split "{sgv}<span class=x>I</span>{direction}<span>a>b</span></span>"
  = ["{sgv}"; "<span class=x>I</span>"; "{direction}"; "<span>a>b</span>";
     "</span>"].
Proof. vm_compute. reflexivity. Qed.

Example split_adjacent :
  Re.split "<span>a</span><span>b</span>"
  = [EmptyString; "<span>a</span>"; EmptyString; "<span>b</span>"; EmptyString].
Proof. vm_compute. reflexivity. Qed.

Example sub_example : Re.sub "<span class=x>I</span>" = "I".
Proof. vm_compute. reflexivity. Qed.

Example format_map_example :
  Fmt.format_map "({sgv_delta}) {{x}} {delta_time_in_minutes} min" Scenario.rendered
  = Some (Ok "(-3) {x} 2 min").
Proof. vm_compute. reflexivity. Qed.

Example format_map_unknown :
  Fmt.format_map "a{nope}b}" Scenario.rendered = Some (raise KeyError "nope").
Proof. vm_compute. reflexivity. Qed.

Example mmol_l_examples :
  mmol_l (Int 120) = Ok "6.7" /\ mmol_l (Float Scenario.minus_three) = Ok "-0.2".
Proof. split; vm_compute; reflexivity. Qed.

Example of_int_float : PyFloat.of_int (-3) = Ok Scenario.minus_three.
Proof. vm_compute. reflexivity. Qed.

Example round_examples :
  PyFloat.round (S754_finite false 5 (-1)) = Ok 2
  /\ PyFloat.round (S754_finite false 7 (-1)) = Ok 4
  /\ PyFloat.round (S754_finite true 1 (-1)) = Ok 0.
Proof. repeat split. Qed.

Example strptime_example :
  DateTime.strptime Scenario.date_string = Ok Scenario.reading_time.
Proof. vm_compute. reflexivity. Qed.

Example strptime_offsets :
  Py.is_ok (DateTime.strptime "2023-02-29T00:00:00.0Z") = false
  /\ Py.is_ok (DateTime.strptime "2023-02-28T00:00:00.0Z") = true
  /\ (do a <- DateTime.strptime "2024-01-01T02:00:00.000000+0200";
      do b <- DateTime.strptime "2023-12-31T18:30:00.0-05:30";
      Ok (DateTime.utc_microseconds a - DateTime.utc_microseconds b))
     = Ok 0.
Proof. repeat split; vm_compute; reflexivity. Qed.

(** The binary64 that [total_seconds()] returns, against the exact
    rational of the model: the same at whole seconds, and the same floor
    by 60 one microsecond before and after a whole minute. *)
Example total_seconds_binary64 :
  (do x <- PyFloat.int_truediv (Spec.seconds 119) 1000000;
   Ok (Qeq_bool (PyFloat.to_Q x) (DateTime.total_seconds (Spec.seconds 119))))
  = Ok true
  /\ (do x <- PyFloat.int_truediv (Spec.seconds 120 - 1) 1000000;
      Ok (DateTime.floordiv_60 (PyFloat.to_Q x)))
     = Ok (DateTime.minutes_since 0 (Spec.seconds 120 - 1))
  /\ (do x <- PyFloat.int_truediv (- Spec.seconds 120 - 1) 1000000;
      Ok (DateTime.floordiv_60 (PyFloat.to_Q x)))
     = Ok (DateTime.minutes_since 0 (- Spec.seconds 120 - 1)).
Proof. repeat split; vm_compute; reflexivity. Qed.

Example ordinal_of_1970 : DateTime._ymd2ord 1970 1 1 = 719163.
Proof. reflexivity. Qed.

Example sha1_examples :
  Sha1.hexdigest "abc" = "a9993e364706816aba3e25717850c26c9cd0d89d"
  /\ Sha1.hexdigest EmptyString = "da39a3ee5e6b4b0d3255bfef95601890afd80709"
  /\ Sha1.hexdigest "abcdbcdecdefdefgefghfghighijhijkijkljklmklmnlmnomnopnopq"
     = "84983e441c3bd26ebaae4aa1f95129e5e54670f1".
Proof. repeat split; vm_compute; reflexivity. Qed.

Example init_example :
  init Defaults.label Defaults.tooltip Scenario.host Scenario.secret
       Defaults.secret_env_name Defaults.direction_icons
       Defaults.sgv_measurement_units (fun _ => None) [QLabel "old"]
  = Ok (Scenario.widget Defaults.label Defaults.tooltip "mg/dl" ["old"],
        Scenario.worker).
Proof. vm_compute. reflexivity. Qed.

(** With every default kept, the secret is empty and so is the name of
    the variable: [__init__] ends in [set_url]. *)
Example init_defaults :
  init Defaults.label Defaults.tooltip Defaults.host Defaults.secret
       Defaults.secret_env_name Defaults.direction_icons
       Defaults.sgv_measurement_units (fun _ => None) [QLabel "old"]
  = raise AttributeError "'NoneType' object has no attribute 'encode'".
Proof. vm_compute. reflexivity. Qed.

(** Scenario A. *)
Example scenario_A :
  GlucoseMonitorWorker.run
    Scenario.worker
    (Scenario.answers
       (GlucoseMonitorWorker.Response 200 (Ok (Scenario.reading "Flat"))))
  = [GlucoseMonitorWorker.status_updated
       120 Scenario.minus_three Scenario.date_string "Flat"]
  /\ _handle_status_update
       Scenario.now 120 Scenario.minus_three Scenario.date_string "Flat"
       (Scenario.widget Defaults.label Defaults.tooltip "mg/dl" ["old"])
     = Some (with_tooltip_text
               (Some "(-3) 2 min")
               (with_widgets
                  [QLabel "🩸120➡️"]
                  (with_status_data
                     Scenario.rendered
                     (Scenario.widget Defaults.label Defaults.tooltip "mg/dl"
                                      ["old"]))),
             Ok tt).
Proof. split; vm_compute; reflexivity. Qed.

(** Scenario B. *)
Example scenario_B :
  _handle_status_update
    Scenario.now 120 Scenario.minus_three Scenario.date_string "Flat"
    (Scenario.widget Defaults.label Defaults.tooltip "mmol/l" ["old"])
  = Some (with_tooltip_text
            (Some "(-0.2) 2 min")
            (with_widgets
               [QLabel "🩸6.7➡️"]
               (with_status_data
                  (status_data "6.7" "-0.2" 2 "➡️")
                  (Scenario.widget Defaults.label Defaults.tooltip "mmol/l"
                                   ["old"]))),
          Ok tt).
Proof. vm_compute. reflexivity. Qed.

End Checks.

(** ** The steps given to [Re.split] and [Re.sub] are enough *)

Module ReFacts.
Import PyStr Re.

Lemma strip_prefix_length p : forall s r,
  strip_prefix p s = Some r ->
  (String.length r + String.length p = String.length s)%nat.
Proof.
  induction p as [|a p IH]; intros [|b s] r; simpl; intros H;
    try discriminate.
  - injection H as <-. reflexivity.
  - injection H as <-. simpl. lia.
  - destruct (Ascii.eqb a b); [|discriminate].
    apply IH in H. lia.
Qed.

Lemma cons_fst_length c r m rest :
  cons_fst c r = Some (m, rest) ->
  exists m', r = Some (m', rest).
Proof.
  destruct r as [[m' rest']|]; simpl; [|discriminate].
  intros [= <- <-]. eauto.
Qed.

Lemma lazy_close_length s : forall m rest,
  lazy_close s = Some (m, rest) ->
  (String.length rest <= String.length s)%nat.
Proof.
  induction s as [|c t IH]; intros m rest.
  - simpl. discriminate.
  - cbn [lazy_close].
    destruct (strip_prefix "</span>" (String c t)) as [r|] eqn:E.
    + intros [= <- <-]. apply strip_prefix_length in E. lia.
    + destruct (dot c); [|discriminate].
      intros H. apply cons_fst_length in H as (m' & H).
      apply IH in H. simpl. lia.
Qed.

Lemma lazy_open_length s : forall m rest,
  lazy_open s = Some (m, rest) ->
  (String.length rest <= String.length s)%nat.
Proof.
  induction s as [|c t IH]; intros m rest.
  - simpl. discriminate.
  - cbn [lazy_open].
    destruct (if code c =? 62 then cons_fst c (lazy_close t) else None)
      as [[m1 r1]|] eqn:E.
    + intros [= <- <-]. destruct (code c =? 62); [|discriminate].
      apply cons_fst_length in E as (m' & E).
      apply lazy_close_length in E. simpl. lia.
    + destruct (dot c); [|discriminate].
      intros H. apply cons_fst_length in H as (m' & H).
      apply IH in H. simpl. lia.
Qed.

(** A match of the span expression consumes at least its opening tag. *)
Lemma match_span_length s m rest :
  match_span s = Some (m, rest) ->
  (String.length rest < String.length s)%nat.
Proof.
  unfold match_span.
  destruct (strip_prefix "<span" s) as [t|] eqn:E; [|discriminate].
  destruct (lazy_open t) as [[m' rest']|] eqn:E'; [|discriminate].
  intros [= <- <-]. apply strip_prefix_length in E.
  apply lazy_open_length in E'. simpl in E. lia.
Qed.

Lemma lazy_gt_length s : forall rest,
  lazy_gt s = Some rest -> (String.length rest < String.length s)%nat.
Proof.
  induction s as [|c t IH]; intros rest; simpl.
  - discriminate.
  - destruct (code c =? 62).
    + intros [= <-]. lia.
    + destruct (dot c); [|discriminate]. intros H. apply IH in H. lia.
Qed.

Lemma match_tag_length s rest :
  match_tag s = Some rest -> (String.length rest < String.length s)%nat.
Proof.
  unfold match_tag.
  destruct (strip_prefix "<span" s) as [t|] eqn:E.
  - destruct (lazy_gt t) as [r|] eqn:E'.
    + intros [= <-]. apply strip_prefix_length in E.
      apply lazy_gt_length in E'. lia.
    + intros H. apply strip_prefix_length in H. simpl in H. lia.
  - intros H. apply strip_prefix_length in H. simpl in H. lia.
Qed.

Lemma split_spans_enough n : forall m s,
  (String.length s < n)%nat -> (String.length s < m)%nat ->
  split_spans n s = split_spans m s.
Proof.
  induction n as [|n IH]; intros [|m] s Hn Hm; try lia.
  cbn [split_spans].
  destruct (match_span s) as [[mm rest]|] eqn:E.
  - apply match_span_length in E. rewrite (IH m rest) by lia. reflexivity.
  - destruct s as [|c t]; [reflexivity|]. simpl in Hn, Hm.
    rewrite (IH m t) by lia. reflexivity.
Qed.

(** [Re.split] by its own equation: the steps never run out. *)
Lemma split_equation s :
  split s
  = match match_span s with
    | Some (m, rest) => EmptyString :: m :: split rest
    | None =>
        match s with
        | String c t => push c (split t)
        | EmptyString => [EmptyString]
        end
    end.
Proof.
  unfold split at 1. cbn [split_spans].
  destruct (match_span s) as [[m rest]|] eqn:E.
  - apply match_span_length in E.
    rewrite (split_spans_enough _ (S (String.length rest)) rest) by lia.
    reflexivity.
  - destruct s as [|c t]; [reflexivity|].
    rewrite (split_spans_enough _ (S (String.length t)) t) by (simpl; lia).
    reflexivity.
Qed.

Lemma sub_tags_enough n : forall m s,
  (String.length s < n)%nat -> (String.length s < m)%nat ->
  sub_tags n s = sub_tags m s.
Proof.
  induction n as [|n IH]; intros [|m] s Hn Hm; try lia.
  cbn [sub_tags].
  destruct (match_tag s) as [rest|] eqn:E.
  - apply match_tag_length in E. apply IH; lia.
  - destruct s as [|c t]; [reflexivity|]. simpl in Hn, Hm.
    rewrite (IH m t) by lia. reflexivity.
Qed.

(** [Re.sub] by its own equation. *)
Lemma sub_equation s :
  sub s
  = match match_tag s with
    | Some rest => sub rest
    | None =>
        match s with
        | String c t => String c (sub t)
        | EmptyString => EmptyString
        end
    end.
Proof.
  unfold sub at 1. cbn [sub_tags].
  destruct (match_tag s) as [rest|] eqn:E.
  - apply match_tag_length in E. apply sub_tags_enough; lia.
  - destruct s as [|c t]; [reflexivity|].
    rewrite (sub_tags_enough _ (S (String.length t)) t) by (simpl; lia).
    reflexivity.
Qed.

End ReFacts.

(** ** One invocation of [run] *)

Module WorkerFacts.
Import Json GlucoseMonitorWorker Spec.

Lemma bind_ok {A B} (r : result A) (k : A -> result B) (b : B) :
  Py.bind r k = Ok b -> exists a, r = Ok a /\ k a = Ok b.
Proof. destruct r as [a|e]; simpl; [eauto | discriminate]. Qed.

Lemma first_ok data x :
  first data = Ok x ->
  (exists rest, data = JArr (x :: rest))
  \/ (exists s, data = JStr s /\ exists t, x = JStr t).
Proof.
  destruct data as [| | | |s|l|items]; simpl; try discriminate.
  - destruct s; [discriminate|]. intros [= <-]. right; eauto.
  - destruct l; [discriminate|]. intros [= <-]. left; eauto.
Qed.

Lemma item_ok obj key v :
  item obj key = Ok v -> exists items, obj = JObj items /\ dict_get key items = Some v.
Proof.
  destruct obj; simpl; try discriminate.
  destruct (dict_get key items) eqn:E; [|discriminate].
  intros [= <-]; eauto.
Qed.

Lemma fetch_ok w net s :
  fetch w net = Ok s ->
  exists a b c d, s = status_updated a b c d /\ reads w net a b c d.
Proof.
  unfold fetch, urlopen. intros H.
  apply bind_ok in H as ([status body] & Hopen & H).
  apply bind_ok in H as (data & Hbody & H). simpl in Hbody, H.
  destruct (status =? 200) eqn:Hst; simpl in H; [|discriminate].
  apply Z.eqb_eq in Hst; subst status.
  apply bind_ok in H as (resp_json & Hfirst & H).
  apply bind_ok in H as (sgv & Hsgv & H).
  apply bind_ok in H as (delta & Hdelta & H).
  apply bind_ok in H as (ds & Hds & H).
  apply bind_ok in H as (dir & Hdir & H).
  apply bind_ok in H as (a & Ha & H).
  apply bind_ok in H as (b & Hb & H).
  apply bind_ok in H as (c & Hc & H).
  apply bind_ok in H as (d & Hd & H).
  injection H as <-.
  apply item_ok in Hsgv as (items & -> & Hsgv).
  apply item_ok in Hdelta as (items1 & [= <-] & Hdelta).
  apply item_ok in Hds as (items2 & [= <-] & Hds).
  apply item_ok in Hdir as (items3 & [= <-] & Hdir).
  apply first_ok in Hfirst as [(rest & ->) | (s & _ & t & [=])].
  destruct (_url w) as [u|] eqn:Hu; [|discriminate].
  destruct (net u) as [e|st bd] eqn:Hnet; [discriminate|].
  destruct ((200 <=? st) && (st <? 300)); [|discriminate].
  injection Hopen as -> ->. rewrite Hbody in Hnet.
  exists a, b, c, d. split; [reflexivity|].
  exists u, items, rest, sgv, delta, ds, dir. repeat split; assumption.
Qed.

(** The converse: a 200 response with the four fields of the right
    types is emitted as it is. *)
Lemma fetch_reads w net a b c d :
  reads w net a b c d -> fetch w net = Ok (status_updated a b c d).
Proof.
  intros (u & items & rest & sgv & delta & ds & dir & Hu & Hnet
          & Hs & Ha & Hd & Hb & Hds & Hc & Hdir & Hdd).
  unfold fetch, urlopen. rewrite Hu, Hnet. simpl.
  rewrite Hs, Hd, Hds, Hdir. simpl. rewrite Ha, Hb, Hc, Hdd. reflexivity.
Qed.

(** C10: one invocation of [run] emits nothing when the worker has been
    stopped, and otherwise exactly one signal: either [status_updated]
    with the sgv, delta, dateString and direction of the first array
    element, or [error_signal] with one message. *)
Theorem run_emits_at_most_one_signal (w : worker) (net : string -> http) :
  (running w = false -> run w net = [])
  /\ (running w = true ->
      (exists a b c d,
          run w net = [status_updated a b c d] /\ reads w net a b c d)
      \/ (exists message, run w net = [error_signal message])).
Proof.
  unfold run. split; intros ->; simpl; [reflexivity|].
  destruct (fetch w net) as [s|e] eqn:Hf.
  - left. apply fetch_ok in Hf as (a & b & c & d & -> & Hr). eauto 10.
  - right. destruct (is_RuntimeError e); eauto.
Qed.

Lemma run_emits_at_most_one_signal_witness :
  run (stop Scenario.worker) (Scenario.answers (Response 200 (Ok (Scenario.reading "Flat")))) = []
  /\ ((exists a b c d,
          run Scenario.worker (Scenario.answers (Response 200 (Ok (Scenario.reading "Flat"))))
          = [status_updated a b c d]
          /\ reads Scenario.worker (Scenario.answers (Response 200 (Ok (Scenario.reading "Flat")))) a b c d)
      \/ (exists message,
             run Scenario.worker (Scenario.answers (Response 200 (Ok (Scenario.reading "Flat"))))
             = [error_signal message])).
Proof.
  split.
  - apply (run_emits_at_most_one_signal (stop Scenario.worker)). reflexivity.
  - apply (run_emits_at_most_one_signal Scenario.worker). reflexivity.
Defined.

(** Any status outside 200-299 ends in the generic message. *)
Lemma run_status_outside_2xx w u net status body :
  running w = true -> _url w = Some u -> net u = Response status body ->
  (200 <=? status) && (status <? 300) = false ->
  run w net = [error_signal "Error while loading response"].
Proof.
  intros Hr Hu Hn Hs. unfold run, fetch, urlopen.
  rewrite Hr, Hu, Hn, Hs. reflexivity.
Qed.

(** A body that does not parse ends in the generic message whatever
    the status, unless the parser's exception is a [RuntimeError]. *)
Lemma run_body_unparsed w u net status e :
  running w = true -> _url w = Some u -> net u = Response status (Raise e) ->
  is_RuntimeError e = false ->
  run w net = [error_signal "Error while loading response"].
Proof.
  intros Hr Hu Hn He. unfold run, fetch, urlopen.
  rewrite Hr, Hu, Hn. destruct ((200 <=? status) && (status <? 300)); simpl;
    [rewrite He|]; reflexivity.
Qed.

(** C4, the code at the failing inputs: a 500 whose body is an error
    page, a 500 whose body is JSON and a 204 without a body all end in
    the generic message, which carries no status code; only a status from
    201 to 299 whose body parses reaches the check that names the code. *)
Theorem bad_status_message_without_code :
  run Scenario.worker
      (Scenario.answers (Response 500 (raise ValueError "Expecting value")))
  = [error_signal "Error while loading response"]
  /\ run Scenario.worker
         (Scenario.answers (Response 500 (Ok (Scenario.reading "Flat"))))
     = [error_signal "Error while loading response"]
  /\ run Scenario.worker
         (Scenario.answers (Response 204 (raise ValueError "Expecting value")))
     = [error_signal "Error while loading response"]
  /\ run Scenario.worker
         (Scenario.answers (Response 201 (Ok (Scenario.reading "Flat"))))
     = [error_signal "Response status code should be 200 but got 201"].
Proof. repeat split; vm_compute; reflexivity. Qed.


End WorkerFacts.

(** ** The handler before it renders *)

Module HandlerFacts.
Import PyStr Fmt GlucoseMonitor Spec.

Ltac unfold_handler :=
  unfold _handle_status_update, _handle_error_signal, toaster_show,
    bindM, lift, get, getitem, modify, ret.

Lemma units_unknown (units : string) :
  units <> "mg/dl" -> units <> "mmol/l" ->
  _available_sgv_measurement_units !! units = None.
Proof.
  intros H1 H2. unfold _available_sgv_measurement_units.
  rewrite lookup_insert_ne by congruence.
  rewrite lookup_insert_ne by congruence.
  apply lookup_empty.
Qed.

(** With a unit outside the table the handler shows the toast and then
    calls [None]: the [TypeError] escapes, nothing else has changed. *)
Lemma handle_wrong_units now sgv sgv_delta date_string direction self dt icon :
  _sgv_measurement_units self <> "mg/dl" ->
  _sgv_measurement_units self <> "mmol/l" ->
  DateTime.strptime date_string = Ok dt ->
  _direction_icons self !! direction = Some icon ->
  _handle_status_update now sgv sgv_delta date_string direction self
  = Some (with_toasts (toasts self ++ ["Wrong measurement units"]) self,
          raise TypeError "'NoneType' object is not callable").
Proof.
  intros H1 H2 Hd Hi.
  unfold_handler. rewrite Hd, Hi. simpl.
  rewrite (units_unknown _ H1 H2). reflexivity.
Qed.

(** A direction outside the icon table stops the handler at the lookup. *)
Lemma handle_unknown_direction now sgv sgv_delta date_string direction self dt :
  DateTime.strptime date_string = Ok dt ->
  _direction_icons self !! direction = None ->
  _handle_status_update now sgv sgv_delta date_string direction self
  = Some (self, raise KeyError direction).
Proof.
  intros Hd Hi.
  unfold_handler. rewrite Hd, Hi. reflexivity.
Qed.

(** A date string [strptime] refuses stops the handler at once. *)
Lemma handle_bad_date now sgv sgv_delta date_string direction self e :
  DateTime.strptime date_string = Raise e ->
  _handle_status_update now sgv sgv_delta date_string direction self
  = Some (self, Raise e).
Proof.
  intros Hd. unfold_handler. rewrite Hd. reflexivity.
Qed.

(** C1, the code at the failing input: with the unit "mmol" the toast
    is shown and the mapping and the labels are as before, but the
    handler ends in a [TypeError]. *)
Theorem wrong_units_handler_raises :
  _handle_status_update Scenario.now 120 Scenario.minus_three
                        Scenario.date_string "Flat"
                        (Scenario.widget Defaults.label Defaults.tooltip "mmol" ["old"])
  = Some (with_toasts ["Wrong measurement units"]
            (Scenario.widget Defaults.label Defaults.tooltip "mmol" ["old"]),
          raise TypeError "'NoneType' object is not callable").
Proof. vm_compute. reflexivity. Qed.



End HandlerFacts.

(** ** Rendering the label *)

Module RenderFacts.
Import PyStr Fmt GlucoseMonitor Spec.

Lemma name_char_inv c :
  name_char c = true ->
  is_char 123 c = false /\ is_char 125 c = false
  /\ (is_char 91 c || is_char 58 c || is_char 33 c) = false.
Proof.
  unfold name_char. intros H. apply negb_true_iff in H.
  repeat (apply orb_false_iff in H as [H ?]).
  repeat split; try assumption.
  repeat (apply orb_false_iff; split); assumption.
Qed.

(** Inside a field, the characters of a plain name are collected up to
    the closing brace, where the name is looked up. *)
Lemma scan_field name rest acc data :
  name_chars name = true ->
  scan (name +:+ String "}"%char rest) (Field acc) data
  = match get_field (rev_onto acc name) data with
    | Some (Ok v) =>
        match scan rest Text data with
        | Some (Ok r) => Some (Ok (v +:+ r))
        | other => other
        end
    | other => other
    end.
Proof.
  revert acc. induction name as [|c name IH]; intros acc Hn.
  - reflexivity.
  - simpl in Hn. apply andb_true_iff in Hn as [Hc Hn].
    apply name_char_inv in Hc as (H1 & H2 & H3).
    change (String c name +:+ String "}"%char rest)
      with (String c (name +:+ String "}"%char rest)).
    cbn [scan]. rewrite H2, H1, H3. rewrite (IH _ Hn). reflexivity.
Qed.

Lemma get_field_unknown name (data : gmap string value) :
  plain_name name = true -> data !! name = None ->
  get_field name data = Some (raise KeyError name).
Proof.
  unfold plain_name, get_field. intros H Hd.
  repeat (apply andb_true_iff in H as [H ?]).
  repeat match goal with
         | X : negb _ = true |- _ => apply negb_true_iff in X
         end.
  repeat match goal with
         | X : _ = _ |- _ => rewrite X
         end.
  reflexivity.
Qed.

(** A template whose first replacement field names a key the mapping
    lacks raises [KeyError] for that key. *)
Lemma format_map_unknown_field lit name rest (data : gmap string value) :
  plain_text lit = true -> plain_name name = true -> data !! name = None ->
  format_map (lit +:+ "{" +:+ name +:+ "}" +:+ rest) data
  = Some (raise KeyError name).
Proof.
  intros Hl Hn Hd. unfold format_map.
  induction lit as [|c lit IH].
  - assert (Hchars : name_chars name = true).
    { unfold plain_name in Hn. repeat (apply andb_true_iff in Hn as [Hn _]).
      exact Hn. }
    destruct name as [|c name].
    { unfold plain_name in Hn. simpl in Hn. discriminate. }
    pose proof Hchars as Hsplit. simpl in Hsplit.
    apply andb_true_iff in Hsplit as [Hc Htail].
    apply name_char_inv in Hc as (Hopen & Hclose & Hother).
    change (scan (String "{"%char (String c (name +:+ String "}"%char rest))) Text data
            = Some (raise KeyError (String c name))).
    cbn [scan]. change (is_char 123 "{"%char) with true. cbn iota.
    rewrite Hopen, Hclose, Hother.
    rewrite (scan_field _ _ _ _ Htail).
    change (rev_onto (String c EmptyString) name) with (rev_onto EmptyString (String c name)).
    change (rev_onto EmptyString (String c name)) with (String c name).
    rewrite (get_field_unknown _ _ Hn Hd). reflexivity.
  - simpl in Hl. apply andb_true_iff in Hl as [Hl Hlit].
    apply andb_true_iff in Hl as [Hl Hr].
    apply negb_true_iff in Hl. apply negb_true_iff in Hr.
    change (String c lit +:+ "{" +:+ name +:+ "}" +:+ rest)
      with (String c (lit +:+ "{" +:+ name +:+ "}" +:+ rest)).
    cbn [scan]. rewrite Hl, Hr, (IH Hlit). reflexivity.
Qed.

(** *** The loop of [_update_label] *)

Lemma with_widgets_same self : with_widgets (_widgets self) self = self.
Proof. destruct self; reflexivity. Qed.

Lemma touches_set i text self :
  touches i self (with_widgets (<[i := QLabel text]> (_widgets self)) self)
          (Ok (S i)).
Proof.
  unfold touches. simpl. split; [reflexivity|]. split.
  - apply length_insert.
  - split; [lia|]. intros k Hk. apply list_lookup_insert_ne. lia.
Qed.

Lemma update_part_touches part i self self' r :
  update_part part i self = Some (self', r) -> touches i self self' r.
Proof.
  unfold update_part, bindM, get, ret, setText, modify, lift_fragment.
  destruct (is_empty (strip part)
            || (length (_widgets self) <=? i)%nat
            || negb (is_QLabel (_widgets self !! i))).
  - intros [= <- <-]. unfold touches. rewrite with_widgets_same.
    repeat split; auto.
  - destruct (contains "<span" (strip part) && contains "</span>" (strip part)).
    + intros [= <- <-]. apply touches_set.
    + destruct (format_map (strip part) (_status_data self)) as [[text|e]|];
        [| |discriminate].
      * intros [= <- <-]. apply touches_set.
      * intros [= <- <-]. unfold touches. rewrite with_widgets_same. auto.
Qed.

Lemma touches_trans i j self self1 self2 r :
  touches i self self1 (Ok j) -> touches j self1 self2 r ->
  match r with
  | Ok _ => touches i self self2 r
  | Raise _ => self2 = self1
  end.
Proof.
  intros (E1 & L1 & Hij & K1) (E2 & L2 & H2). destruct r as [k|e]; [|exact H2].
  destruct H2 as (Hjk & K2). unfold touches. split; [|split; [|split]].
  - rewrite E2, E1. reflexivity.
  - congruence.
  - lia.
  - intros n Hn. rewrite K2 by lia. apply K1. lia.
Qed.

Lemma update_parts_touches parts : forall i self self' j,
  update_parts parts i self = Some (self', Ok j) -> touches i self self' (Ok j).
Proof.
  induction parts as [|part parts IH]; intros i self self' j; simpl.
  - unfold ret. intros [= <- <-]. unfold touches.
    rewrite with_widgets_same. repeat split; auto.
  - unfold bindM at 1.
    destruct (update_part part i self) as [[self1 [i1|e]]|] eqn:E;
      [|discriminate|discriminate].
    intros H. apply update_part_touches in E. apply IH in H.
    exact (touches_trans _ _ _ _ _ _ E H).
Qed.

Lemma update_parts_app pre : forall post i self,
  update_parts (pre ++ post) i self
  = bindM (update_parts pre i) (update_parts post) self.
Proof.
  induction pre as [|part pre IH]; intros post i self; simpl.
  - reflexivity.
  - unfold bindM.
    destruct (update_part part i self) as [[self1 [i1|e]]|]; [|reflexivity..].
    rewrite IH. reflexivity.
Qed.

(** A text part with a label to go to and an unknown field raises
    before it sets anything. *)
Lemma update_part_unknown_field part j self lit name rest :
  is_QLabel (_widgets self !! j) = true ->
  strip part = lit +:+ "{" +:+ name +:+ "}" +:+ rest ->
  plain_text lit = true -> plain_name name = true ->
  contains "<span" (strip part) && contains "</span>" (strip part) = false ->
  _status_data self !! name = None ->
  update_part part j self = Some (self, raise KeyError name).
Proof.
  intros Hq Hs Hl Hn Hspan Hd.
  unfold update_part, bindM, get, ret, lift_fragment.
  assert (He : is_empty (strip part) = false).
  { rewrite Hs. destruct lit; reflexivity. }
  assert (Hlen : (length (_widgets self) <=? j)%nat = false).
  { apply Nat.leb_gt. apply lookup_lt_is_Some.
    destruct (_widgets self !! j); [eauto | discriminate]. }
  rewrite He, Hlen, Hq, Hspan. simpl.
  rewrite Hs, (format_map_unknown_field _ _ _ _ Hl Hn Hd). reflexivity.
Qed.




End RenderFacts.

(** ** The converter of "mg/dl" *)

Module ConvertFacts.
Import PyStr GlucoseMonitor Spec.

Lemma round_half_even_div_nearest n d :
  0 < d ->
  2 * Z.abs (PyFloat.round_half_even_div n d * d - n) <= d
  /\ (2 * Z.abs (PyFloat.round_half_even_div n d * d - n) = d ->
      Z.even (PyFloat.round_half_even_div n d) = true).
Proof.
  intros Hd. unfold PyFloat.round_half_even_div.
  pose proof (Z.div_mod n d ltac:(lia)) as Hdm.
  pose proof (Z.mod_pos_bound n d Hd) as Hr.
  set (q := n / d) in *. set (r := n mod d) in *.
  destruct (Z.compare_spec (2 * r) d) as [He|Hl|Hg].
  - destruct (Z.even q) eqn:Hq.
    + split; [|auto]. replace (q * d - n) with (- r) by lia. lia.
    + split.
      * replace ((q + 1) * d - n) with (d - r) by lia. lia.
      * intros _. rewrite Z.add_1_r, Z.even_succ, <- Z.negb_even, Hq. reflexivity.
  - split.
    + replace (q * d - n) with (- r) by lia. lia.
    + replace (q * d - n) with (- r) by lia. lia.
  - split.
    + replace ((q + 1) * d - n) with (d - r) by lia. lia.
    + replace ((q + 1) * d - n) with (d - r) by lia. lia.
Qed.

Lemma round_half_even_div_positive n d :
  0 < d -> d < 2 * n -> 1 <= PyFloat.round_half_even_div n d.
Proof.
  intros Hd Hn. unfold PyFloat.round_half_even_div.
  pose proof (Z.div_mod n d ltac:(lia)) as Hdm.
  pose proof (Z.mod_pos_bound n d Hd) as Hr.
  assert (0 <= n / d) by (apply Z.div_pos; lia).
  set (q := n / d) in *. set (r := n mod d) in *.
  destruct (Z.compare_spec (2 * r) d) as [He|Hl|Hg].
  - destruct (Z.even q) eqn:Hq; [|lia].
    destruct (Z.eq_dec q 0) as [->|]; [|lia]. lia.
  - destruct (Z.eq_dec q 0) as [E|]; [|lia]. rewrite E in Hdm. lia.
  - lia.
Qed.

Lemma of_int_negative p : exists t, of_int (Zneg p) = String "-"%char t.
Proof. eexists. reflexivity. Qed.

(** The distance of an integer to a fraction, in integers. *)
Lemma Qabs_distance (n m : Z) (d : positive) :
  Qabs (inject_Z n - (m # d)) == (Z.abs (n * Zpos d - m) # d).
Proof.
  unfold Qminus, Qplus, Qopp, inject_Z, Qabs, Qeq. simpl.
  f_equal. f_equal. lia.
Qed.

Lemma nearest_as_Q (n m : Z) (d : positive) :
  (2 * Z.abs (n * Zpos d - m) <= Zpos d ->
   (Qabs (inject_Z n - (m # d)) <= 1 # 2)%Q)
  /\ ((Qabs (inject_Z n - (m # d)) == 1 # 2)%Q ->
      2 * Z.abs (n * Zpos d - m) = Zpos d).
Proof.
  split; intros H.
  - rewrite Qabs_distance. unfold Qle. simpl. lia.
  - rewrite Qabs_distance in H. unfold Qeq in H. simpl in H. lia.
Qed.

(** [round] on a finite float, against the float as a fraction. *)
Lemma round_finite s m e :
  exists (a num : Z) (d : positive),
    PyFloat.round (S754_finite s m e) = Ok a
    /\ PyFloat.to_Q (S754_finite s m e) = num # d
    /\ 2 * Z.abs (a * Zpos d - num) <= Zpos d
    /\ (2 * Z.abs (a * Zpos d - num) = Zpos d -> Z.even a = true)
    /\ (2 * num < - Zpos d -> a < 0).
Proof.
  destruct e as [|p|p].
  - exists (if s then - Zpos m else Zpos m), (if s then - Zpos m else Zpos m), 1%positive.
    destruct s; simpl; repeat split; try reflexivity; lia.
  - assert (Hpow : 0 < 2 ^ Zpos p) by (apply Z.pow_pos_nonneg; lia).
    exists (if s then - (Zpos m * 2 ^ Zpos p) else Zpos m * 2 ^ Zpos p),
           (if s then - (Zpos m * 2 ^ Zpos p) else Zpos m * 2 ^ Zpos p),
           1%positive.
    destruct s; cbn [PyFloat.round PyFloat.to_Q]; repeat split;
      try reflexivity; try lia.
  - pose proof (Pos2Z.inj_pow 2 p) as Hpow.
    pose proof (round_half_even_div_nearest (Zpos m) (2 ^ Zpos p)) as Hnear.
    pose proof (round_half_even_div_positive (Zpos m) (2 ^ Zpos p)) as Hpos.
    rewrite <- Hpow in Hnear, Hpos.
    specialize (Hnear ltac:(lia)) as [Hle Htie].
    exists (if s then - PyFloat.round_half_even_div (Zpos m) (2 ^ Zpos p)
            else PyFloat.round_half_even_div (Zpos m) (2 ^ Zpos p)),
           (if s then Zneg m else Zpos m), (2 ^ p)%positive.
    rewrite <- Hpow.
    set (a := PyFloat.round_half_even_div (Zpos m) (Zpos (2 ^ p))) in *.
    destruct s; cbn [PyFloat.round PyFloat.to_Q]; rewrite <- ?Hpow; fold a.
    + split; [reflexivity|]. split; [reflexivity|].
      replace (- a * Zpos (2 ^ p) - Zneg m) with (- (a * Zpos (2 ^ p) - Zpos m)) by lia.
      rewrite Z.abs_opp, Z.even_opp. repeat split; auto.
      intros H. specialize (Hpos ltac:(lia) ltac:(lia)). lia.
    + repeat split; auto. lia.
Qed.




End ConvertFacts.

(** ** The timestamp and the minutes since *)

Module StalenessFacts.
Import PyStr DateTime GlucoseMonitor Spec.

(** The floor by 60 of the seconds is the floor division of the
    microseconds by sixty million. *)
Lemma minutes_since_div t now :
  minutes_since t now = (now - t) / 60000000.
Proof.
  unfold minutes_since, floordiv_60, total_seconds, sub.
  unfold Qdiv, Qmult, Qinv, inject_Z, Qfloor. simpl.
  rewrite Z.mul_1_r. reflexivity.
Qed.

Lemma minutes_since_whole_seconds t n :
  minutes_since t (t + seconds n) = n / 60.
Proof.
  rewrite minutes_since_div. unfold seconds.
  replace (t + n * 1000000 - t) with (n * 1000000) by lia.
  change 60000000 with (60 * 1000000).
  rewrite Z.div_mul_cancel_r by lia. reflexivity.
Qed.



(** Once the date, the direction and the unit are accepted, the
    handler stores the four fields and renders: the minutes it stores
    are those between the UTC instant of the reading and [now]. *)
Lemma handle_status_update_stores
      now sgv sgv_delta date_string direction self dt icon convert a b :
  strptime date_string = Ok dt ->
  _direction_icons self !! direction = Some icon ->
  _available_sgv_measurement_units !! _sgv_measurement_units self = Some convert ->
  convert (Int sgv) = Ok a ->
  convert (Float sgv_delta) = Ok b ->
  _handle_status_update now sgv sgv_delta date_string direction self
  = _update_label
      (with_status_data
         (status_data a b (minutes_since (utc_microseconds dt) now) icon) self).
Proof.
  intros Hd Hi Hu Ha Hb.
  HandlerFacts.unfold_handler.
  rewrite Hd, Hi. simpl. rewrite Hu. simpl. rewrite Ha, Hb. reflexivity.
Qed.

(** The local time of a datetime, its offset left aside. *)
Lemma utc_microseconds_offset dt :
  utc_microseconds dt = local_microseconds dt - utcoffset dt.
Proof. reflexivity. Qed.

Lemma strptime_ok_inv s dt :
  strptime s = Ok dt ->
  exists yy mo dd hh mi ss us rest,
    parse_local s = Some (yy, mo, dd, hh, mi, ss, us, rest)
    /\ dir_z rest = Some (Ok (utcoffset dt), EmptyString)
    /\ dt = {| year := yy; month := mo; day := dd; hour := hh; minute := mi;
               second := ss; microsecond := us; utcoffset := utcoffset dt |}.
Proof.
  unfold strptime.
  destruct (parse_local s) as [[[[[[[[yy mo] dd] hh] mi] ss] us] rest]|];
    [|discriminate].
  destruct (dir_z rest) as [[off rest']|] eqn:Hz; [|discriminate].
  destruct rest'; [|discriminate]. simpl.
  destruct off as [off|e]; [|discriminate]. simpl.
  destruct (negb _); [discriminate|].
  destruct (59 <? ss); [discriminate|].
  destruct (negb _); [discriminate|].
  intros [= <-]. simpl.
  exists yy, mo, dd, hh, mi, ss, us, rest. repeat split. exact Hz.
Qed.




End StalenessFacts.

(** ** The secret *)

Module SecretFacts.
Import PyStr GlucoseMonitor.

(** C8, as stated, fails: the empty secret differs from "env" and is
    still replaced by the environment variable. *)
Lemma empty_secret_counterexample :
  EmptyString <> "env"
  /\ resolve_secret EmptyString "CGM_SECRET" (fun _ => Some "from-env")
     = Some "from-env"
  /\ resolve_secret EmptyString "CGM_SECRET" (fun _ => Some "from-env")
     <> Some EmptyString.
Proof. repeat split; discriminate. Qed.

(** C8, amended: the secret the URL is built from is the configured
    literal whenever the literal is neither "env" nor empty, and it is
    read from the named environment variable exactly when the literal is
    "env" or empty. *)
Theorem secret_is_literal_unless_env_or_empty
        (secret secret_env_name host : string) (getenv : string -> option string) :
  (secret <> "env" -> secret <> EmptyString ->
   resolve_secret secret secret_env_name getenv = Some secret
   /\ init_worker host (resolve_secret secret secret_env_name getenv)
      = Ok (GlucoseMonitorWorker.set_url host secret GlucoseMonitorWorker.init))
  /\ (secret = "env" \/ secret = EmptyString ->
      resolve_secret secret secret_env_name getenv = getenv secret_env_name).
Proof.
  unfold resolve_secret. split.
  - intros Henv Hempty.
    destruct (String.eqb_spec secret "env") as [E|_]; [contradiction|].
    simpl. destruct secret; [contradiction|]. split; reflexivity.
  - intros [-> | ->]; reflexivity.
Qed.

Lemma secret_is_literal_unless_env_or_empty_witness :
  resolve_secret Scenario.secret "CGM_SECRET" (fun _ => Some "from-env")
  = Some Scenario.secret
  /\ init_worker Scenario.host
                 (resolve_secret Scenario.secret "CGM_SECRET"
                                 (fun _ => Some "from-env"))
     = Ok Scenario.worker.
Proof.
  apply (proj1 (secret_is_literal_unless_env_or_empty
                  Scenario.secret "CGM_SECRET" Scenario.host
                  (fun _ => Some "from-env"))); discriminate.
Defined.

End SecretFacts.

(** ** Triggers during a fetch *)

Module SchedulerFacts.
Import GlucoseMonitorWorker Scheduler.

(** The requests begun are those ended, plus the one on its way. *)
Lemma issued_answered w s :
  reachable w s ->
  issued s = (answered s + (if fetching s then 1 else 0))%nat.
Proof.
  induction 1 as [|s e s' Hreach IH Hstep].
  - unfold initial, start, fetching. simpl. destruct (running w); reflexivity.
  - inversion Hstep; subst.
    + unfold start, fetching in *.
      destruct (thread s) as [w0|] eqn:Ht; [rewrite Ht; exact IH|].
      simpl. destruct (running (the_worker s)); lia.
    + unfold finish, fetching in *. simpl.
      match goal with Ht : thread s = Some _ |- _ => rewrite Ht in IH end.
      destruct (running w0); lia.
    + unfold set_stopped, fetching in *. simpl. exact IH.
Qed.

Lemma start_while_running s :
  thread s <> None -> start s = s.
Proof. unfold start. destruct (thread s); [reflexivity|contradiction]. Qed.

(** C9: at most one request is in flight in every state the timer and
    the thread can reach; a trigger that fires while one is in flight
    changes nothing, so of two such triggers none starts a second
    request and none is kept for later: when the request returns, one
    request has been made in all and the thread is idle. *)
Theorem at_most_one_fetch_in_flight w s :
  reachable w s ->
  (in_flight s <= 1)%nat
  /\ (in_flight s = 1%nat <-> fetching s = true)
  /\ (thread s = None -> running (the_worker s) = true ->
      forall s1 s2,
        step s Trigger s1 -> step s1 Trigger s2 ->
        issued s1 = S (issued s) /\ in_flight s1 = 1%nat /\ s2 = s1)
  /\ (fetching s = true ->
      forall s1 s2 s3 net,
        step s Trigger s1 -> step s1 Trigger s2 -> step s2 (Return net) s3 ->
        s1 = s /\ s2 = s
        /\ issued s3 = issued s
        /\ in_flight s3 = 0%nat
        /\ thread s3 = None).
Proof.
  intros Hreach. pose proof (issued_answered w s Hreach) as Hinv.
  unfold in_flight. split; [|split; [|split]].
  - destruct (fetching s); lia.
  - destruct (fetching s); split; intros; try lia; try discriminate; reflexivity.
  - intros Hidle Hrun s1 s2 H1 H2.
    inversion H1; subst. inversion H2; subst.
    unfold fetching in Hinv. rewrite Hidle in Hinv.
    assert (Hs : start s
                 = {| the_worker := the_worker s; thread := Some (the_worker s);
                      issued := S (issued s); answered := answered s;
                      emitted := emitted s |}).
    { unfold start. rewrite Hidle, Hrun. reflexivity. }
    rewrite Hs. simpl. repeat split; lia.
  - intros Hf s1 s2 s3 net H1 H2 H3.
    assert (Ht : thread s <> None).
    { unfold fetching in Hf. destruct (thread s); [discriminate|discriminate]. }
    inversion H1; subst. rewrite (start_while_running _ Ht) in *.
    inversion H2; subst. rewrite (start_while_running _ Ht) in *.
    inversion H3; subst.
    unfold fetching in Hf, Hinv.
    match goal with Hw : thread s = Some _ |- _ => rewrite Hw in Hf, Hinv end.
    rewrite Hf in Hinv. unfold finish. simpl. rewrite Hf.
    repeat split; lia.
Qed.

Lemma at_most_one_fetch_in_flight_witness :
  (in_flight (initial Scenario.worker) <= 1)%nat
  /\ (in_flight (initial Scenario.worker) = 1%nat
      <-> fetching (initial Scenario.worker) = true)
  /\ (thread (initial Scenario.worker) = None ->
      running (the_worker (initial Scenario.worker)) = true ->
      forall s1 s2,
        step (initial Scenario.worker) Trigger s1 -> step s1 Trigger s2 ->
        issued s1 = S (issued (initial Scenario.worker))
        /\ in_flight s1 = 1%nat /\ s2 = s1)
  /\ (fetching (initial Scenario.worker) = true ->
      forall s1 s2 s3 net,
        step (initial Scenario.worker) Trigger s1 ->
        step s1 Trigger s2 -> step s2 (Return net) s3 ->
        s1 = initial Scenario.worker /\ s2 = initial Scenario.worker
        /\ issued s3 = issued (initial Scenario.worker)
        /\ in_flight s3 = 0%nat
        /\ thread s3 = None).
Proof.
  apply (at_most_one_fetch_in_flight Scenario.worker (initial Scenario.worker)).
  apply reach_init.
Defined.

End SchedulerFacts.

(** ** More on [run]: when a reading is emitted and what the messages are *)

Module WorkerMore.
Import Json GlucoseMonitorWorker Spec SpecMore.

Lemma run_fetch_raises w net e :
  running w = true -> fetch w net = Raise e ->
  run w net
  = [error_signal (if is_RuntimeError e then exn_arg e else generic_message)].
Proof.
  intros Hr Hf. unfold run. rewrite Hr, Hf. simpl.
  destruct (is_RuntimeError e); reflexivity.
Qed.

(** X1: [run] emits [status_updated a b c d] exactly when the worker
    is running and the answer to its URL is a 200 response whose first
    array element holds an sgv, a delta, a dateString and a direction
    that convert to [a], [b], [c] and [d]. *)
Theorem status_updated_iff_reads (w : worker) (net : string -> http)
        (a : Z) (b : float) (c d : string) :
  run w net = [status_updated a b c d]
  <-> running w = true /\ reads w net a b c d.
Proof.
  split.
  - unfold run. destruct (running w); simpl; [|discriminate].
    destruct (fetch w net) as [s|e] eqn:Hf.
    + intros [= ->]. split; [reflexivity|].
      apply WorkerFacts.fetch_ok in Hf as (a' & b' & c' & d' & [= -> -> -> ->] & H).
      exact H.
    + destruct (is_RuntimeError e); discriminate.
  - intros [Hr H]. apply WorkerFacts.fetch_reads in H.
    unfold run. rewrite Hr, H. reflexivity.
Qed.

(** X2: a response with a status from 201 to 299 whose body parses is
    reported with the message that names the status, whatever the body
    holds: a well-formed reading in it is not used. *)
Theorem success_status_other_than_200 (w : worker) (u : string)
        (net : string -> http) (status : Z) (data : json) :
  running w = true -> _url w = Some u ->
  net u = Response status (Ok data) ->
  200 < status < 300 ->
  run w net = [error_signal (bad_status_message status)].
Proof.
  intros Hr Hu Hn Hs.
  apply run_fetch_raises with (e := Exn RuntimeError (bad_status_message status));
    [exact Hr|].
  unfold fetch, urlopen. rewrite Hu, Hn.
  replace ((200 <=? status) && (status <? 300)) with true
    by (symmetry; apply andb_true_iff; split; [apply Z.leb_le|apply Z.ltb_lt]; lia).
  simpl. replace (status =? 200) with false
    by (symmetry; apply Z.eqb_neq; lia).
  reflexivity.
Qed.

Lemma success_status_other_than_200_witness :
  run Scenario.worker
      (Scenario.answers (Response 201 (Ok (Scenario.reading "Flat"))))
  = [error_signal (bad_status_message 201)].
Proof.
  apply (success_status_other_than_200 Scenario.worker
           (Scenario.host +:+ "/api/v1/entries/current.json?secret="
              +:+ Sha1.hexdigest Scenario.secret)
           _ 201 (Scenario.reading "Flat")).
  - reflexivity.
  - reflexivity.
  - reflexivity.
  - lia.
Defined.

(** X3: a 200 response whose first element is an object without one of
    the four keys is reported with the generic message, whichever key is
    missing and whatever the other fields hold. *)
Theorem first_element_without_a_key (w : worker) (u : string)
        (net : string -> http) (items : list (string * json))
        (rest : list json) (key : string) :
  running w = true -> _url w = Some u ->
  net u = Response 200 (Ok (JArr (JObj items :: rest))) ->
  In key required_keys -> dict_get key items = None ->
  run w net = [error_signal generic_message].
Proof.
  intros Hr Hu Hn Hk Hm.
  assert (exists k, fetch w net = raise KeyError k) as [k Hf].
  { unfold fetch, urlopen. rewrite Hu, Hn. simpl.
    destruct (dict_get "sgv" items) as [v1|] eqn:E1; simpl; [|eauto].
    destruct (dict_get "delta" items) as [v2|] eqn:E2; simpl; [|eauto].
    destruct (dict_get "dateString" items) as [v3|] eqn:E3; simpl; [|eauto].
    destruct (dict_get "direction" items) as [v4|] eqn:E4; simpl; [|eauto].
    exfalso. simpl in Hk.
    destruct Hk as [<-|[<-|[<-|[<-|[]]]]]; congruence. }
  rewrite (run_fetch_raises w net _ Hr Hf). reflexivity.
Qed.

Lemma first_element_without_a_key_witness :
  run Scenario.worker
      (Scenario.answers
         (Response 200
            (Ok (JArr [JObj [("sgv", JInt 120); ("delta", JInt (-3));
                             ("dateString", JStr Scenario.date_string)]]))))
  = [error_signal generic_message].
Proof.
  apply (first_element_without_a_key Scenario.worker
           (Scenario.host +:+ "/api/v1/entries/current.json?secret="
              +:+ Sha1.hexdigest Scenario.secret)
           _ [("sgv", JInt 120); ("delta", JInt (-3));
              ("dateString", JStr Scenario.date_string)] [] "direction").
  - reflexivity.
  - reflexivity.
  - reflexivity.
  - simpl. tauto.
  - reflexivity.
Defined.

(** X4: a 200 response whose body parses to anything but an array
    that starts with an object (an empty array, an object, a string, a
    number, null, an array of numbers) is reported with the generic
    message. *)
Theorem body_of_another_shape (w : worker) (u : string)
        (net : string -> http) (data : json) :
  running w = true -> _url w = Some u ->
  net u = Response 200 (Ok data) ->
  starts_with_object data = false ->
  run w net = [error_signal generic_message].
Proof.
  intros Hr Hu Hn Hs.
  assert (exists e, fetch w net = Raise e /\ is_RuntimeError e = false)
    as (e & Hf & He).
  { unfold fetch, urlopen. rewrite Hu, Hn. simpl.
    destruct data as [| | | |s|l|items]; simpl; eauto.
    - destruct s; simpl; eauto.
    - destruct l as [|x l]; simpl; eauto.
      destruct x; simpl; eauto. discriminate. }
  rewrite (run_fetch_raises w net _ Hr Hf), He. reflexivity.
Qed.

Lemma body_of_another_shape_witness :
  run Scenario.worker (Scenario.answers (Response 200 (Ok (JArr []))))
  = [error_signal generic_message].
Proof.
  apply (body_of_another_shape Scenario.worker
           (Scenario.host +:+ "/api/v1/entries/current.json?secret="
              +:+ Sha1.hexdigest Scenario.secret)
           _ (JArr [])); reflexivity.
Defined.

(** The exceptions of the reading of the body are no [RuntimeError]s. *)
Lemma first_raises data e :
  first data = Raise e -> is_RuntimeError e = false.
Proof.
  destruct data as [| | | |[|]|[|]|]; simpl; intros [= <-]; reflexivity.
Qed.

Lemma item_raises x k e :
  item x k = Raise e -> is_RuntimeError e = false.
Proof.
  destruct x; simpl; try (intros [= <-]; reflexivity).
  destruct (dict_get k items); [discriminate|]. intros [= <-]; reflexivity.
Qed.

Lemma as_int_raises v e :
  as_int v = Raise e -> is_RuntimeError e = false.
Proof.
  destruct v; simpl; try (intros [= <-]; reflexivity); try discriminate.
  destruct ((-2147483648 <=? z) && (z <=? 2147483647)); [discriminate|].
  intros [= <-]; reflexivity.
Qed.

Lemma of_int_raises z e :
  PyFloat.of_int z = Raise e -> is_RuntimeError e = false.
Proof.
  unfold PyFloat.of_int.
  destruct (binary_normalize _ _ _ _ _); try discriminate.
  intros [= <-]; reflexivity.
Qed.

Lemma as_float_raises v e :
  as_float v = Raise e -> is_RuntimeError e = false.
Proof.
  destruct v; simpl; try (intros [= <-]; reflexivity); try discriminate;
    apply of_int_raises.
Qed.

Lemma as_str_raises v e :
  as_str v = Raise e -> is_RuntimeError e = false.
Proof.
  destruct v; simpl; try (intros [= <-]; reflexivity); discriminate.
Qed.

(** One step of a chain of [bind]s that ends in [Raise e]: either the
    first computation raised [e], settled by [lem], or it returned. *)
Ltac raise_step H lem :=
  match type of H with
  | Py.bind ?r _ = Raise _ =>
      let E := fresh "E" in
      destruct r eqn:E; simpl in H;
      [|injection H as <-; exact (lem _ _ E) || exact (lem _ _ _ E)]
  end.

(** X5: the message of an [error_signal] is the generic one, or the one
    that names a status from 201 to 299, or the text of a [RuntimeError]
    that [urlopen] or the parsing of the body raised: the text of no
    other exception is shown. *)
Theorem error_messages_of_run (w : worker) (net : string -> http)
        (message : string) :
  run w net = [error_signal message] ->
  message = generic_message
  \/ (exists status, 200 < status < 300 /\ message = bad_status_message status)
  \/ (exists u e, _url w = Some u /\ is_RuntimeError e = true
                  /\ message = exn_arg e
                  /\ (net u = Failed e
                      \/ exists status, net u = Response status (Raise e))).
Proof.
  unfold run. destruct (running w); simpl; [|discriminate].
  destruct (fetch w net) as [s|e] eqn:Hf.
  - apply WorkerFacts.fetch_ok in Hf as (a & b & c & d & -> & _). discriminate.
  - destruct (is_RuntimeError e) eqn:He; [|intros [= <-]; left; reflexivity].
    intros [= <-]. right.
    unfold fetch, urlopen in Hf.
    destruct (_url w) as [u|]; [|injection Hf as <-; discriminate He].
    destruct (net u) as [e'|status body] eqn:Hn.
    + injection Hf as <-. right. exists u, e'. eauto.
    + destruct ((200 <=? status) && (status <? 300)) eqn:Hs;
        [|injection Hf as <-; discriminate He].
      apply andb_true_iff in Hs as [H1 H2].
      apply Z.leb_le in H1. apply Z.ltb_lt in H2.
      simpl in Hf. destruct body as [data|e']; simpl in Hf.
      * destruct (status =? 200) eqn:E; simpl in Hf.
        -- exfalso. assert (is_RuntimeError e = false) as Hno;
             [|rewrite Hno in He; discriminate He].
           clear He.
           raise_step Hf first_raises.
           raise_step Hf item_raises.
           raise_step Hf item_raises.
           raise_step Hf item_raises.
           raise_step Hf item_raises.
           raise_step Hf as_int_raises.
           raise_step Hf as_float_raises.
           raise_step Hf as_str_raises.
           raise_step Hf as_str_raises.
           discriminate Hf.
        -- injection Hf as <-. left. exists status.
           apply Z.eqb_neq in E. split; [lia|reflexivity].
      * injection Hf as <-. right. exists u, e'. eauto 10.
Qed.

Lemma error_messages_of_run_witness :
  "boom" = generic_message
  \/ (exists status, 200 < status < 300 /\ "boom" = bad_status_message status)
  \/ (exists u e,
         _url Scenario.worker = Some u /\ is_RuntimeError e = true
         /\ "boom" = exn_arg e
         /\ (Scenario.answers (Failed (Exn RuntimeError "boom")) u = Failed e
             \/ exists status,
                 Scenario.answers (Failed (Exn RuntimeError "boom")) u
                 = Response status (Raise e))).
Proof.
  apply (error_messages_of_run
           Scenario.worker (Scenario.answers (Failed (Exn RuntimeError "boom")))
           "boom").
  reflexivity.
Defined.

End WorkerMore.

(** ** The segments of a template *)

Module ReMore.
Import PyStr Re Spec SpecMore.

Lemma append_assoc (a b c : string) : (a +:+ b) +:+ c = a +:+ (b +:+ c).
Proof.
  induction a as [|x a IH]; [reflexivity|].
  change ((String x a +:+ b) +:+ c) with (String x ((a +:+ b) +:+ c)).
  rewrite IH. reflexivity.
Qed.

Lemma append_empty (a : string) : a +:+ EmptyString = a.
Proof.
  induction a as [|x a IH]; [reflexivity|].
  change (String x a +:+ EmptyString) with (String x (a +:+ EmptyString)).
  rewrite IH. reflexivity.
Qed.

Lemma strip_prefix_append p : forall s r,
  strip_prefix p s = Some r -> s = p +:+ r.
Proof.
  induction p as [|a p IH]; intros [|b s] r; simpl; intros H;
    try discriminate.
  - injection H as <-. reflexivity.
  - injection H as <-. reflexivity.
  - destruct (Ascii.eqb a b) eqn:E; [|discriminate].
    apply Ascii.eqb_eq in E as <-.
    apply IH in H as ->. reflexivity.
Qed.

Lemma cons_fst_some c r m rest :
  cons_fst c r = Some (m, rest) ->
  exists m', r = Some (m', rest) /\ m = String c m'.
Proof.
  destruct r as [[m' rest']|]; simpl; [|discriminate].
  intros [= <- <-]. eauto.
Qed.

Lemma lazy_close_append s : forall m rest,
  lazy_close s = Some (m, rest) -> s = m +:+ rest.
Proof.
  induction s as [|c t IH]; intros m rest.
  - simpl. discriminate.
  - cbn [lazy_close].
    destruct (strip_prefix "</span>" (String c t)) as [r|] eqn:E.
    + intros [= <- <-]. apply strip_prefix_append in E. exact E.
    + destruct (dot c); [|discriminate].
      intros H. apply cons_fst_some in H as (m' & H & ->).
      apply IH in H as ->. reflexivity.
Qed.

Lemma lazy_open_append s : forall m rest,
  lazy_open s = Some (m, rest) -> s = m +:+ rest.
Proof.
  induction s as [|c t IH]; intros m rest.
  - simpl. discriminate.
  - cbn [lazy_open].
    destruct (if code c =? 62 then cons_fst c (lazy_close t) else None)
      as [[m1 r1]|] eqn:E.
    + intros [= <- <-]. destruct (code c =? 62); [|discriminate].
      apply cons_fst_some in E as (m' & E & ->).
      apply lazy_close_append in E as ->. reflexivity.
    + destruct (dot c); [|discriminate].
      intros H. apply cons_fst_some in H as (m' & H & ->).
      apply IH in H as ->. reflexivity.
Qed.

(** A match of the span expression is a prefix of the string. *)
Lemma match_span_append s m rest :
  match_span s = Some (m, rest) -> s = m +:+ rest.
Proof.
  unfold match_span.
  destruct (strip_prefix "<span" s) as [t|] eqn:E; [|discriminate].
  destruct (lazy_open t) as [[m' rest']|] eqn:E'; [|discriminate].
  intros [= <- <-]. apply strip_prefix_append in E as ->.
  apply lazy_open_append in E' as ->. reflexivity.
Qed.

Lemma concat_push c l : l <> [] -> concat (push c l) = String c (concat l).
Proof. destruct l; [congruence|reflexivity]. Qed.

Lemma split_spans_nonempty n s : split_spans n s <> [].
Proof.
  destruct n; simpl; [discriminate|].
  destruct (match_span s) as [[m rest]|]; [discriminate|].
  destruct s; [discriminate|].
  destruct (split_spans n s); discriminate.
Qed.

(** X6: the pieces [re.split] cuts a template into, put together
    again in order, are the template: the cut loses and adds no
    character. *)
Theorem concat_split (s : string) : concat (split s) = s.
Proof.
  remember (S (String.length s)) as n eqn:Hn.
  assert (Hlt : (String.length s < n)%nat) by lia. clear Hn.
  revert s Hlt. induction n as [|n IH]; intros s Hlt; [lia|].
  rewrite ReFacts.split_equation.
  destruct (match_span s) as [[m rest]|] eqn:E.
  - pose proof (ReFacts.match_span_length _ _ _ E) as Hl.
    apply match_span_append in E. cbn [concat].
    rewrite (IH rest) by lia. symmetry. exact E.
  - destruct s as [|c t]; [reflexivity|].
    rewrite concat_push by apply split_spans_nonempty.
    rewrite (IH t) by (simpl in Hlt; lia). reflexivity.
Qed.

Lemma strip_prefix_lt p c t :
  (code c =? 60) = false -> strip_prefix (String "<" p) (String c t) = None.
Proof.
  intros H. cbn [strip_prefix].
  destruct (Ascii.eqb "<" c) eqn:E; [|reflexivity].
  apply Ascii.eqb_eq in E. subst c. discriminate H.
Qed.

Lemma match_span_no_lt c t :
  (code c =? 60) = false -> match_span (String c t) = None.
Proof.
  intros H. unfold match_span. rewrite (strip_prefix_lt _ _ _ H). reflexivity.
Qed.

(** X7: a template without [<] is one text segment. *)
Theorem split_without_markup (s : string) :
  no_lt s = true -> split s = [s].
Proof.
  induction s as [|c t IH]; intros H.
  - reflexivity.
  - simpl in H. apply andb_true_iff in H as [Hc Ht].
    apply negb_true_iff in Hc.
    rewrite ReFacts.split_equation, (match_span_no_lt _ _ Hc), (IH Ht).
    reflexivity.
Qed.

Lemma split_without_markup_witness :
  split Defaults.label = [Defaults.label].
Proof.
  apply (split_without_markup Defaults.label). reflexivity.
Defined.

Lemma lazy_close_inner inner rest :
  inner_chars inner = true ->
  lazy_close (inner +:+ "</span>" +:+ rest) = Some (inner +:+ "</span>", rest).
Proof.
  induction inner as [|c t IH]; intros H.
  - reflexivity.
  - simpl in H. apply andb_true_iff in H as [Hc Ht].
    apply andb_true_iff in Hc as [Hdot Hlt]. apply negb_true_iff in Hlt.
    change (String c t +:+ "</span>" +:+ rest)
      with (String c (t +:+ "</span>" +:+ rest)).
    cbn [lazy_close]. rewrite (strip_prefix_lt _ _ _ Hlt), Hdot, (IH Ht).
    reflexivity.
Qed.

Lemma lazy_open_attrs attrs inner rest :
  attr_chars attrs = true -> inner_chars inner = true ->
  lazy_open (attrs +:+ ">" +:+ inner +:+ "</span>" +:+ rest)
  = Some (attrs +:+ ">" +:+ inner +:+ "</span>", rest).
Proof.
  intros Ha Hi. induction attrs as [|c t IH].
  - change (EmptyString +:+ ">" +:+ inner +:+ "</span>" +:+ rest)
      with (String ">" (inner +:+ "</span>" +:+ rest)).
    cbn [lazy_open]. change (code ">" =? 62) with true. cbn iota.
    rewrite (lazy_close_inner _ _ Hi). reflexivity.
  - simpl in Ha. apply andb_true_iff in Ha as [Hc Ht].
    apply andb_true_iff in Hc as [Hdot Hgt]. apply negb_true_iff in Hgt.
    change (String c t +:+ ">" +:+ inner +:+ "</span>" +:+ rest)
      with (String c (t +:+ ">" +:+ inner +:+ "</span>" +:+ rest)).
    cbn [lazy_open]. rewrite Hgt, Hdot, (IH Ht). reflexivity.
Qed.

Lemma match_span_span attrs inner rest :
  attr_chars attrs = true -> inner_chars inner = true ->
  match_span (span_then attrs inner rest) = Some (span attrs inner, rest).
Proof.
  intros Ha Hi. unfold match_span, span, span_then.
  change (strip_prefix "<span" ("<span" +:+ attrs +:+ ">" +:+ inner +:+ "</span>" +:+ rest))
    with (Some (attrs +:+ ">" +:+ inner +:+ "</span>" +:+ rest)).
  cbv iota. rewrite (lazy_open_attrs _ _ _ Ha Hi).
  rewrite append_empty. reflexivity.
Qed.

(** X8: where a template holds text without [<] and then an icon,
    [<span attrs>inner</span>] with no [>] in [attrs], no [<] in [inner]
    and no line feed in either, [re.split] gives the text, the icon as
    one piece, and the pieces of what follows. *)
Theorem split_at_an_icon (lit attrs inner rest : string) :
  no_lt lit = true -> attr_chars attrs = true -> inner_chars inner = true ->
  split (lit +:+ span_then attrs inner rest)
  = lit :: span attrs inner :: split rest.
Proof.
  intros Hl Ha Hi. induction lit as [|c t IH].
  - change (EmptyString +:+ span_then attrs inner rest)
      with (span_then attrs inner rest).
    rewrite ReFacts.split_equation, (match_span_span _ _ _ Ha Hi).
    reflexivity.
  - simpl in Hl. apply andb_true_iff in Hl as [Hc Ht].
    apply negb_true_iff in Hc.
    change (String c t +:+ span_then attrs inner rest)
      with (String c (t +:+ span_then attrs inner rest)).
    rewrite ReFacts.split_equation, (match_span_no_lt _ _ Hc), (IH Ht).
    reflexivity.
Qed.

Lemma split_at_an_icon_witness :
  split ("{sgv}" +:+ span_then " class=icon" "I" "{direction}")
  = ["{sgv}"; span " class=icon" "I"; "{direction}"].
Proof.
  apply (split_at_an_icon "{sgv}" " class=icon" "I" "{direction}");
    reflexivity.
Defined.

Lemma lazy_gt_attrs attrs rest :
  attr_chars attrs = true -> lazy_gt (attrs +:+ ">" +:+ rest) = Some rest.
Proof.
  induction attrs as [|c t IH]; intros Ha.
  - reflexivity.
  - simpl in Ha. apply andb_true_iff in Ha as [Hc Ht].
    apply andb_true_iff in Hc as [Hdot Hgt]. apply negb_true_iff in Hgt.
    change (String c t +:+ ">" +:+ rest) with (String c (t +:+ ">" +:+ rest)).
    cbn [lazy_gt]. rewrite Hgt, Hdot. exact (IH Ht).
Qed.

Lemma match_tag_other c t :
  (code c =? 60) = false -> match_tag (String c t) = None.
Proof.
  intros H. unfold match_tag.
  rewrite !(strip_prefix_lt _ _ _ H). reflexivity.
Qed.

Lemma sub_inner inner :
  no_lt inner = true -> sub (inner +:+ "</span>") = inner.
Proof.
  induction inner as [|c t IH]; intros H.
  - reflexivity.
  - simpl in H. apply andb_true_iff in H as [Hc Ht].
    apply negb_true_iff in Hc.
    change (String c t +:+ "</span>") with (String c (t +:+ "</span>")).
    rewrite ReFacts.sub_equation, (match_tag_other _ _ Hc), (IH Ht).
    reflexivity.
Qed.

(** X9: [re.sub] takes the two tags off an icon and leaves what stands
    between them, when no [>] or line feed stands in the opening tag and
    no [<] between the tags. *)
Theorem sub_of_an_icon (attrs inner : string) :
  attr_chars attrs = true -> no_lt inner = true ->
  sub (span attrs inner) = inner.
Proof.
  intros Ha Hi. rewrite ReFacts.sub_equation.
  unfold match_tag, span, span_then.
  change (strip_prefix "<span" ("<span" +:+ attrs +:+ ">" +:+ inner +:+ "</span>" +:+ EmptyString))
    with (Some (attrs +:+ ">" +:+ inner +:+ "</span>" +:+ EmptyString)).
  cbv iota. rewrite (lazy_gt_attrs _ _ Ha).
  change ("</span>" +:+ EmptyString) with "</span>".
  apply sub_inner. exact Hi.
Qed.

Lemma sub_of_an_icon_witness :
  sub (span " class=icon" "I") = "I".
Proof.
  apply (sub_of_an_icon " class=icon" "I"); reflexivity.
Defined.

End ReMore.

(** ** Substitution and the loop of [_update_label] *)

Module RenderMore.
Import PyStr Fmt GlucoseMonitor Spec SpecMore.

Lemma get_field_known name (data : gmap string value) v :
  plain_name name = true -> data !! name = Some v ->
  get_field name data = Some (Ok (str v)).
Proof.
  unfold plain_name, get_field. intros H Hd.
  repeat (apply andb_true_iff in H as [H ?]).
  repeat match goal with
         | X : negb _ = true |- _ => apply negb_true_iff in X
         end.
  repeat match goal with
         | X : _ = _ |- _ => rewrite X
         end.
  reflexivity.
Qed.

(** X10: a template without braces is returned as it is, whatever the
    mapping holds. *)
Theorem format_map_of_plain_text (s : string) (data : gmap string value) :
  plain_text s = true -> format_map s data = Some (Ok s).
Proof.
  unfold format_map. induction s as [|c t IH]; intros H.
  - reflexivity.
  - simpl in H. apply andb_true_iff in H as [H Ht].
    apply andb_true_iff in H as [Hl Hr].
    apply negb_true_iff in Hl. apply negb_true_iff in Hr.
    cbn [scan]. rewrite Hl, Hr, (IH Ht). reflexivity.
Qed.

Lemma format_map_of_plain_text_witness :
  format_map "no reading yet" ∅ = Some (Ok "no reading yet").
Proof.
  apply (format_map_of_plain_text "no reading yet" ∅). reflexivity.
Defined.

Lemma format_map_field (lit name rest : string)
        (data : gmap string value) (v : value) :
  plain_text lit = true -> plain_name name = true -> data !! name = Some v ->
  format_map (lit +:+ "{" +:+ name +:+ "}" +:+ rest) data
  = match format_map rest data with
    | Some (Ok r) => Some (Ok (lit +:+ str v +:+ r))
    | other => other
    end.
Proof.
  intros Hl Hn Hd. unfold format_map.
  induction lit as [|c lit IH].
  - assert (Hchars : name_chars name = true).
    { unfold plain_name in Hn. repeat (apply andb_true_iff in Hn as [Hn _]).
      exact Hn. }
    destruct name as [|c name].
    { unfold plain_name in Hn. simpl in Hn. discriminate. }
    pose proof Hchars as Hsplit. simpl in Hsplit.
    apply andb_true_iff in Hsplit as [Hc Htail].
    apply RenderFacts.name_char_inv in Hc as (Hopen & Hclose & Hother).
    change (EmptyString +:+ "{" +:+ String c name +:+ "}" +:+ rest)
      with (String "{"%char (String c (name +:+ String "}"%char rest))).
    cbn [scan]. change (is_char 123 "{"%char) with true. cbn iota.
    rewrite Hopen, Hclose, Hother.
    rewrite (RenderFacts.scan_field _ _ _ _ Htail).
    change (rev_onto (String c EmptyString) name) with (String c name).
    rewrite (get_field_known _ _ _ Hn Hd). reflexivity.
  - simpl in Hl. apply andb_true_iff in Hl as [Hl Hlit].
    apply andb_true_iff in Hl as [Hl Hr].
    apply negb_true_iff in Hl. apply negb_true_iff in Hr.
    change (String c lit +:+ "{" +:+ name +:+ "}" +:+ rest)
      with (String c (lit +:+ "{" +:+ name +:+ "}" +:+ rest)).
    cbn [scan]. rewrite Hl, Hr, (IH Hlit).
    destruct (scan rest Text data) as [[r|e]|]; reflexivity.
Qed.

(** X11: [format_map] substitutes from left to right: literal text, a
    field the mapping holds and the rest of the template give the text,
    the value as [format] prints it, and the substituted rest; what the
    rest raises is raised.  A doubled brace stands for one brace. *)
Theorem format_map_of_a_field (lit name rest : string)
        (data : gmap string value) (v : value) :
  plain_text lit = true -> plain_name name = true -> data !! name = Some v ->
  format_map (lit +:+ "{" +:+ name +:+ "}" +:+ rest) data
  = match format_map rest data with
    | Some (Ok r) => Some (Ok (lit +:+ str v +:+ r))
    | other => other
    end
  /\ format_map ("{{" +:+ rest) data = emit "{" (format_map rest data)
  /\ format_map ("}}" +:+ rest) data = emit "}" (format_map rest data).
Proof.
  intros Hl Hn Hd. split; [|split].
  - apply format_map_field; assumption.
  - reflexivity.
  - reflexivity.
Qed.

Lemma format_map_of_a_field_witness :
  format_map ("(" +:+ "{" +:+ "sgv_delta" +:+ "}" +:+ ") {delta_time_in_minutes} min")
             Scenario.rendered
  = match format_map ") {delta_time_in_minutes} min" Scenario.rendered with
    | Some (Ok r) => Some (Ok ("(" +:+ str (VStr "-3") +:+ r))
    | other => other
    end
  /\ format_map ("{{" +:+ ") {delta_time_in_minutes} min") Scenario.rendered
     = emit "{" (format_map ") {delta_time_in_minutes} min" Scenario.rendered)
  /\ format_map ("}}" +:+ ") {delta_time_in_minutes} min") Scenario.rendered
     = emit "}" (format_map ") {delta_time_in_minutes} min" Scenario.rendered).
Proof.
  apply (format_map_of_a_field "(" "sgv_delta" ") {delta_time_in_minutes} min"
           Scenario.rendered (VStr "-3")); reflexivity.
Defined.

(** *** The loop *)

Lemma update_part_blocked part i self :
  is_QLabel (_widgets self !! i) = false ->
  update_part part i self = Some (self, Ok i).
Proof.
  intros H. unfold update_part, bindM, get, ret. rewrite H.
  simpl negb. rewrite !orb_true_r. reflexivity.
Qed.

Lemma update_parts_blocked parts i self :
  is_QLabel (_widgets self !! i) = false ->
  update_parts parts i self = Some (self, Ok i).
Proof.
  intros H. induction parts as [|part parts IH]; [reflexivity|].
  cbn [update_parts]. unfold bindM. rewrite (update_part_blocked _ _ _ H).
  exact IH.
Qed.

(** X12: once the loop of [_update_label] stands at a widget that is
    not a [QLabel], or behind the last widget, no later segment is
    rendered or even substituted: the labels stay as they are and no
    segment can raise.  So when the first widget is no label, or there
    is no widget, [_update_label] leaves every widget as it is, whatever
    the label template holds. *)
Theorem loop_stops_where_no_label_is (parts : list string) (i : nat)
        (self : monitor) :
  is_QLabel (_widgets self !! i) = false ->
  update_parts parts i self = Some (self, Ok i)
  /\ (i = 0%nat ->
      forall self' r,
        _update_label self = Some (self', r) -> _widgets self' = _widgets self).
Proof.
  intros H. split; [apply update_parts_blocked; exact H|].
  intros -> self' r. unfold _update_label.
  unfold bindM at 1. unfold get at 1. unfold bindM at 1.
  rewrite (update_parts_blocked _ _ _ H).
  unfold bindM at 1. unfold get at 1.
  destruct (negb (is_empty (_tooltip self))).
  - unfold bindM at 1. unfold get at 1. unfold bindM, lift_fragment.
    destruct (format_map _ _) as [[text|e]|]; [| |discriminate].
    + unfold set_tooltip, modify. intros [= <- _]. reflexivity.
    + intros [= <- _]. reflexivity.
  - unfold ret. intros [= <- _]. reflexivity.
Qed.

Lemma loop_stops_where_no_label_is_witness :
  update_parts ["{glucose}"; "<span>I</span>"] 2 Scenario.stale_short
  = Some (Scenario.stale_short, Ok 2%nat)
  /\ (2%nat = 0%nat ->
      forall self' r,
        _update_label Scenario.stale_short = Some (self', r) ->
        _widgets self' = _widgets Scenario.stale_short).
Proof.
  apply (loop_stops_where_no_label_is
           ["{glucose}"; "<span>I</span>"] 2 Scenario.stale_short).
  reflexivity.
Defined.

Lemma shape_set ws i text :
  is_QLabel (ws !! i) = true -> shape (<[i := QLabel text]> ws) = shape ws.
Proof.
  intros H. unfold shape. rewrite list_fmap_insert.
  apply list_insert_id. rewrite list_lookup_fmap.
  destruct (ws !! i) as [[t|]|]; try discriminate H. reflexivity.
Qed.

Lemma update_part_empty part i self :
  is_empty (strip part) = true -> update_part part i self = Some (self, Ok i).
Proof.
  intros H. unfold update_part, bindM, get, ret. rewrite H. reflexivity.
Qed.

(** A part that is not empty, at a label. *)
Lemma update_part_label part i self :
  is_empty (strip part) = false ->
  is_QLabel (_widgets self !! i) = true ->
  update_part part i self
  = if contains "<span" (strip part) && contains "</span>" (strip part)
    then Some (with_widgets (<[i := QLabel (strip (Re.sub (strip part)))]>
                               (_widgets self)) self, Ok (S i))
    else match format_map (strip part) (_status_data self) with
         | Some (Ok text) =>
             Some (with_widgets (<[i := QLabel text]> (_widgets self)) self,
                   Ok (S i))
         | Some (Raise e) => Some (self, Raise e)
         | None => None
         end.
Proof.
  intros He Hq.
  assert (Hlen : (length (_widgets self) <=? i)%nat = false).
  { apply Nat.leb_gt. apply lookup_lt_is_Some.
    destruct (_widgets self !! i); [eauto|discriminate]. }
  unfold update_part, bindM, get, ret, setText, modify, lift_fragment.
  rewrite He, Hlen, Hq. cbn [negb orb].
  destruct (contains "<span" (strip part) && contains "</span>" (strip part));
    [reflexivity|].
  destruct (format_map (strip part) (_status_data self)) as [[text|e]|];
    reflexivity.
Qed.

(** One step of the loop: it skips the part, or sets the label it
    stands at to a text, or raises with nothing changed. *)
Lemma update_part_cases part i self self' r :
  update_part part i self = Some (self', r) ->
  (self' = self /\ r = Ok i
   /\ (is_empty (strip part) = true \/ is_QLabel (_widgets self !! i) = false))
  \/ (exists text,
         is_QLabel (_widgets self !! i) = true
         /\ self' = with_widgets (<[i := QLabel text]> (_widgets self)) self
         /\ r = Ok (S i)
         /\ forall other,
             _status_data other = _status_data self ->
             is_QLabel (_widgets other !! i) = true ->
             update_part part i other
             = Some (with_widgets (<[i := QLabel text]> (_widgets other)) other,
                     Ok (S i)))
  \/ (exists e, self' = self /\ r = Raise e).
Proof.
  destruct (is_empty (strip part)) eqn:He.
  { rewrite (update_part_empty _ _ _ He). intros [= <- <-]. left. auto. }
  destruct (is_QLabel (_widgets self !! i)) eqn:Hq.
  2: { rewrite (update_part_blocked _ _ _ Hq). intros [= <- <-]. left. auto. }
  rewrite (update_part_label _ _ _ He Hq).
  destruct (contains "<span" (strip part) && contains "</span>" (strip part))
    eqn:Hspan.
  - intros [= <- <-]. right. left. eexists. repeat split.
    intros other _ Ho. rewrite (update_part_label _ _ _ He Ho), Hspan.
    reflexivity.
  - destruct (format_map (strip part) (_status_data self)) as [[text|e]|] eqn:Hf.
    + intros [= <- <-]. right. left. exists text. repeat split.
      intros other Hd Ho.
      rewrite (update_part_label _ _ _ He Ho), Hspan, Hd, Hf. reflexivity.
    + intros [= <- <-]. right. right. eauto.
    + discriminate.
Qed.

(** The loop changes labels only, and only their text. *)
Lemma update_parts_frame parts : forall i self self' r,
  update_parts parts i self = Some (self', r) ->
  self' = with_widgets (_widgets self') self
  /\ shape (_widgets self') = shape (_widgets self).
Proof.
  induction parts as [|part parts IH]; intros i self self' r.
  - simpl. unfold ret. intros [= <- <-].
    rewrite RenderFacts.with_widgets_same. auto.
  - cbn [update_parts]. unfold bindM at 1.
    destruct (update_part part i self) as [[self1 [i1|e]]|] eqn:E;
      [| |discriminate].
    + intros H. apply IH in H as [E2 S2].
      apply update_part_cases in E
        as [(-> & _)|[(text & Hq & -> & _)|(e & _ & [=])]]; [auto|].
      split.
      * rewrite E2 at 1. reflexivity.
      * rewrite S2. apply shape_set. exact Hq.
    + intros [= <- <-].
      apply update_part_cases in E
        as [(_ & [=] & _)|[(text & _ & _ & [=] & _)|(e' & -> & _)]].
      rewrite RenderFacts.with_widgets_same. auto.
Qed.

Lemma update_label_frame self self' r :
  _update_label self = Some (self', r) ->
  self' = with_tooltip_text (tooltip_text self')
                            (with_widgets (_widgets self') self)
  /\ shape (_widgets self') = shape (_widgets self)
  /\ (forall e, r = Raise e -> tooltip_text self' = tooltip_text self).
Proof.
  unfold _update_label. unfold bindM at 1. unfold get at 1.
  unfold bindM at 1.
  destruct (update_parts _ 0 self) as [[self1 [j|e]]|] eqn:E; [| |discriminate].
  - apply update_parts_frame in E as [E1 S1].
    unfold bindM at 1. unfold get at 1.
    destruct (negb (is_empty (_tooltip self1))).
    + unfold bindM at 1. unfold get at 1. unfold bindM, lift_fragment.
      destruct (format_map _ _) as [[text|e]|]; [| |discriminate].
      * unfold set_tooltip, modify. intros [= <- <-].
        split; [|split]; [|exact S1|discriminate].
        rewrite E1. reflexivity.
      * intros [= <- <-]. split; [|split]; [|exact S1|].
        -- rewrite E1. clear. destruct self. reflexivity.
        -- intros _ _. rewrite E1. reflexivity.
    + unfold ret. intros [= <- <-]. split; [|split]; [|exact S1|discriminate].
      rewrite E1. clear. destruct self. reflexivity.
  - intros [= <- <-]. apply update_parts_frame in E as [E1 S1].
    split; [|split]; [|exact S1|].
    + rewrite E1. clear. destruct self. reflexivity.
    + intros _ _. rewrite E1. reflexivity.
Qed.

(** The loop does not look at the tooltip. *)
Lemma update_part_tooltip part i self t :
  update_part part i (with_tooltip_text t self)
  = match update_part part i self with
    | Some (self', r) => Some (with_tooltip_text t self', r)
    | None => None
    end.
Proof.
  destruct (is_empty (strip part)) eqn:He.
  { rewrite !(update_part_empty _ _ _ He). reflexivity. }
  destruct (is_QLabel (_widgets self !! i)) eqn:Hq.
  2: { rewrite !update_part_blocked by exact Hq. reflexivity. }
  rewrite !update_part_label by assumption.
  destruct (contains "<span" (strip part) && contains "</span>" (strip part));
    [reflexivity|].
  change (_status_data (with_tooltip_text t self)) with (_status_data self).
  destruct (format_map (strip part) (_status_data self)) as [[text|e]|];
    reflexivity.
Qed.

Lemma update_parts_tooltip parts : forall i self self' r t,
  update_parts parts i self = Some (self', r) ->
  update_parts parts i (with_tooltip_text t self)
  = Some (with_tooltip_text t self', r).
Proof.
  induction parts as [|part parts IH]; intros i self self' r t.
  - simpl. unfold ret. intros [= <- <-]. reflexivity.
  - cbn [update_parts]. unfold bindM. rewrite update_part_tooltip.
    destruct (update_part part i self) as [[self1 [i1|e]]|];
      [| |discriminate].
    + apply IH.
    + intros [= <- <-]. reflexivity.
Qed.

(** X13: whatever [_update_label] ends in, it has changed nothing but
    the text of labels and the tooltip: the mapping, the templates, the
    icon table, the unit and the toasts are as before, the widgets are as
    many, and each place holds a label exactly when it did before; when
    it raises, the tooltip is as before too. *)
Theorem update_label_changes_the_display_only (self self' : monitor)
        (r : result unit) :
  _update_label self = Some (self', r) ->
  _status_data self' = _status_data self
  /\ toasts self' = toasts self
  /\ _label_content self' = _label_content self
  /\ _tooltip self' = _tooltip self
  /\ _direction_icons self' = _direction_icons self
  /\ _sgv_measurement_units self' = _sgv_measurement_units self
  /\ length (_widgets self') = length (_widgets self)
  /\ (forall k, is_QLabel (_widgets self' !! k) = is_QLabel (_widgets self !! k))
  /\ (forall e, r = Raise e -> tooltip_text self' = tooltip_text self).
Proof.
  intros H. apply update_label_frame in H as (E & S1 & Hraise).
  repeat split; try (rewrite E; reflexivity).
  - apply (f_equal length) in S1. unfold shape in S1.
    rewrite !length_fmap in S1. exact S1.
  - intros k. apply (f_equal (fun l => l !! k)) in S1. unfold shape in S1.
    rewrite !list_lookup_fmap in S1.
    destruct (_widgets self' !! k) as [[t|]|], (_widgets self !! k) as [[t'|]|];
      simpl in S1; try discriminate S1; reflexivity.
  - exact Hraise.
Qed.

Lemma update_label_changes_the_display_only_witness :
  _status_data (with_widgets [QLabel "120"; QLabel "I"; QLabel "c"] Scenario.stale)
  = _status_data Scenario.stale
  /\ toasts (with_widgets [QLabel "120"; QLabel "I"; QLabel "c"] Scenario.stale)
     = toasts Scenario.stale
  /\ _label_content (with_widgets [QLabel "120"; QLabel "I"; QLabel "c"] Scenario.stale)
     = _label_content Scenario.stale
  /\ _tooltip (with_widgets [QLabel "120"; QLabel "I"; QLabel "c"] Scenario.stale)
     = _tooltip Scenario.stale
  /\ _direction_icons (with_widgets [QLabel "120"; QLabel "I"; QLabel "c"] Scenario.stale)
     = _direction_icons Scenario.stale
  /\ _sgv_measurement_units
       (with_widgets [QLabel "120"; QLabel "I"; QLabel "c"] Scenario.stale)
     = _sgv_measurement_units Scenario.stale
  /\ length (_widgets (with_widgets [QLabel "120"; QLabel "I"; QLabel "c"]
                                    Scenario.stale))
     = length (_widgets Scenario.stale)
  /\ (forall k,
         is_QLabel (_widgets (with_widgets [QLabel "120"; QLabel "I"; QLabel "c"]
                                           Scenario.stale) !! k)
         = is_QLabel (_widgets Scenario.stale !! k))
  /\ (forall e, @raise unit KeyError "glucose" = Raise e ->
                tooltip_text (with_widgets [QLabel "120"; QLabel "I"; QLabel "c"]
                                           Scenario.stale)
                = tooltip_text Scenario.stale).
Proof.
  apply (update_label_changes_the_display_only
           Scenario.stale
           (with_widgets [QLabel "120"; QLabel "I"; QLabel "c"] Scenario.stale)
           (raise KeyError "glucose")).
  vm_compute. reflexivity.
Defined.

Lemma update_parts_again parts : forall i self self1 j,
  update_parts parts i self = Some (self1, Ok j) ->
  update_parts parts i self1 = Some (self1, Ok j).
Proof.
  induction parts as [|part parts IH]; intros i self self1 j.
  - simpl. unfold ret. intros [= <- <-]. reflexivity.
  - cbn [update_parts]. unfold bindM at 1.
    destruct (update_part part i self) as [[self' [i'|e]]|] eqn:E;
      [|discriminate|discriminate].
    intros H. pose proof (RenderFacts.update_parts_touches _ _ _ _ _ H)
      as (E1 & L1 & Hij & K1).
    pose proof (IH _ _ _ _ H) as Hagain.
    apply update_part_cases in E
      as [(-> & [= ->] & Hskip)|[(text & Hq & -> & [= ->] & Hany)|(e & _ & [=])]].
    + (* the part was skipped: it is skipped again *)
      unfold bindM. destruct Hskip as [He|Hq].
      * rewrite (update_part_empty _ _ _ He). exact Hagain.
      * rewrite (update_parts_blocked _ _ _ Hq) in H.
        injection H as <- <-.
        rewrite (update_part_blocked _ _ _ Hq).
        apply update_parts_blocked. exact Hq.
    + unfold bindM.
      assert (Hi : _widgets self1 !! i = Some (QLabel text)).
      { rewrite K1 by lia. cbn [_widgets with_widgets]. apply list_lookup_insert_eq.
        apply lookup_lt_is_Some. destruct (_widgets self !! i); [eauto|discriminate]. }
      rewrite (Hany self1).
      * rewrite list_insert_id by exact Hi.
        rewrite RenderFacts.with_widgets_same. exact Hagain.
      * rewrite E1. reflexivity.
      * rewrite Hi. reflexivity.
Qed.

(** X14: a render that succeeded changes nothing when it is run
    again: the labels and the tooltip are a function of the templates
    and the mapping. *)
Theorem update_label_again (self self' : monitor) :
  _update_label self = Some (self', Ok tt) ->
  _update_label self' = Some (self', Ok tt).
Proof.
  intros H.
  pose proof (update_label_frame _ _ _ H) as (E & _).
  revert H. unfold _update_label.
  unfold bindM at 1. unfold get at 1. unfold bindM at 1.
  destruct (update_parts _ 0 self) as [[self1 [j|e]]|] eqn:E1;
    [|discriminate|discriminate].
  pose proof (update_parts_frame _ _ _ _ _ E1) as (F1 & _).
  apply update_parts_again in E1.
  unfold bindM at 1. unfold get at 1.
  assert (Hl : _label_content self' = _label_content self)
    by (rewrite E; reflexivity).
  assert (Ht : _tooltip self' = _tooltip self1)
    by (rewrite E, F1; reflexivity).
  assert (Hd : _status_data self' = _status_data self1)
    by (rewrite E, F1; reflexivity).
  destruct (negb (is_empty (_tooltip self1))) eqn:Htip.
  - unfold bindM at 1. unfold get at 1. unfold bindM at 1. unfold lift_fragment.
    destruct (format_map (_tooltip self1) (_status_data self1))
      as [[text|e]|] eqn:Hf; [|discriminate|discriminate].
    unfold set_tooltip, modify. intros [= <-].
    unfold bindM at 1. unfold get at 1. unfold bindM at 1.
    change (_label_content (with_tooltip_text (Some text) self1))
      with (_label_content self1).
    replace (_label_content self1) with (_label_content self)
      by (rewrite F1; reflexivity).
    rewrite (update_parts_tooltip _ _ _ _ _ (Some text) E1).
    unfold bindM at 1. unfold get at 1.
    change (_tooltip (with_tooltip_text (Some text) self1)) with (_tooltip self1).
    rewrite Htip.
    unfold bindM at 1. unfold get at 1. unfold bindM at 1. unfold lift_fragment.
    change (_status_data (with_tooltip_text (Some text) self1))
      with (_status_data self1).
    rewrite Hf. reflexivity.
  - unfold ret. intros [= <-].
    unfold bindM at 1. unfold get at 1. unfold bindM at 1.
    replace (_label_content self1) with (_label_content self)
      by (rewrite F1; reflexivity).
    rewrite E1. unfold bindM at 1. unfold get at 1. rewrite Htip. reflexivity.
Qed.

Lemma update_label_again_witness :
  _update_label
    (with_tooltip_text (Some "(-3) 2 min")
       (with_widgets [QLabel "120"; QLabel "I"] Scenario.stale_short))
  = Some (with_tooltip_text (Some "(-3) 2 min")
            (with_widgets [QLabel "120"; QLabel "I"] Scenario.stale_short),
          Ok tt).
Proof.
  apply (update_label_again Scenario.stale_short). vm_compute. reflexivity.
Defined.

End RenderMore.

(** ** The handler, from the reading to the display *)

Module HandlerMore.
Import PyStr Fmt GlucoseMonitor Spec SpecMore.

Lemma status_data_lookups a b m icon :
  status_data a b m icon !! "sgv" = Some (VStr a)
  /\ status_data a b m icon !! "sgv_delta" = Some (VStr b)
  /\ status_data a b m icon !! "delta_time_in_minutes" = Some (VInt m)
  /\ status_data a b m icon !! "direction" = Some (VStr icon).
Proof.
  unfold status_data. split; [|split; [|split]].
  - rewrite !lookup_insert_ne by discriminate. apply lookup_insert_eq.
  - rewrite !lookup_insert_ne by discriminate. apply lookup_insert_eq.
  - rewrite !lookup_insert_ne by discriminate. apply lookup_insert_eq.
  - apply lookup_insert_eq.
Qed.



(** X16: with the unit mg/dl a delta that is not a finite number (NaN
    or an infinity) is refused by [round]: the handler raises and the
    object is as it was, with no toast. *)
Theorem delta_that_is_not_finite
        (now sgv : Z) (sgv_delta : float) (date_string direction : string)
        (self : monitor) (dt : DateTime.datetime) (icon : string) :
  _sgv_measurement_units self = "mg/dl" ->
  DateTime.strptime date_string = Ok dt ->
  _direction_icons self !! direction = Some icon ->
  PyFloat.is_finite sgv_delta = false ->
  exists e,
    _handle_status_update now sgv sgv_delta date_string direction self
    = Some (self, Raise e)
    /\ (exn_cls e = ValueError \/ exn_cls e = OverflowError).
Proof.
  intros Hu Hd Hi Hf.
  HandlerFacts.unfold_handler. rewrite Hd, Hi, Hu. simpl.
  destruct sgv_delta as [s| s| |s m e]; try discriminate Hf; simpl; eauto.
Qed.

Lemma delta_that_is_not_finite_witness :
  exists e,
    _handle_status_update Scenario.now 120 S754_nan Scenario.date_string "Flat"
                          (Scenario.widget Defaults.label Defaults.tooltip
                                           "mg/dl" ["old"])
    = Some (Scenario.widget Defaults.label Defaults.tooltip "mg/dl" ["old"],
            Raise e)
    /\ (exn_cls e = ValueError \/ exn_cls e = OverflowError).
Proof.
  apply (delta_that_is_not_finite
           Scenario.now 120 S754_nan Scenario.date_string "Flat"
           (Scenario.widget Defaults.label Defaults.tooltip "mg/dl" ["old"])
           Scenario.reading_time "➡️"); reflexivity.
Defined.

Lemma default_label_text a b m icon :
  format_map Defaults.label (status_data a b m icon)
  = Some (Ok ("🩸" +:+ a +:+ icon)).
Proof.
  destruct (status_data_lookups a b m icon) as (Hs & _ & _ & Hdir).
  change Defaults.label
    with ("🩸" +:+ "{" +:+ "sgv" +:+ "}" +:+ "{direction}").
  rewrite (RenderMore.format_map_field "🩸" "sgv" _ _ _ eq_refl eq_refl Hs).
  change "{direction}"
    with (EmptyString +:+ "{" +:+ "direction" +:+ "}" +:+ EmptyString).
  rewrite (RenderMore.format_map_field EmptyString "direction" _ _ _
             eq_refl eq_refl Hdir).
  change (format_map EmptyString (status_data a b m icon))
    with (Some (Ok EmptyString)).
  cbv iota. simpl str.
  change (EmptyString +:+ icon +:+ EmptyString) with (icon +:+ EmptyString).
  rewrite ReMore.append_empty. reflexivity.
Qed.

Lemma default_tooltip_text a b m icon :
  format_map Defaults.tooltip (status_data a b m icon)
  = Some (Ok ("(" +:+ b +:+ ") " +:+ of_int m +:+ " min")).
Proof.
  destruct (status_data_lookups a b m icon) as (_ & Hb & Hm & _).
  change Defaults.tooltip
    with ("(" +:+ "{" +:+ "sgv_delta" +:+ "}"
              +:+ ") {delta_time_in_minutes} min").
  rewrite (RenderMore.format_map_field "(" "sgv_delta" _ _ _ eq_refl eq_refl Hb).
  change ") {delta_time_in_minutes} min"
    with (") " +:+ "{" +:+ "delta_time_in_minutes" +:+ "}" +:+ " min").
  rewrite (RenderMore.format_map_field ") " "delta_time_in_minutes" _ _ _
             eq_refl eq_refl Hm).
  change (format_map " min" (status_data a b m icon)) with (Some (Ok " min")).
  reflexivity.
Qed.



End HandlerMore.

(** ** The signals of a run, and the worker after [stop] *)

Module SchedulerMore.
Import GlucoseMonitorWorker Scheduler SpecMore.

Lemma run_length w net :
  length (run w net) = if running w then 1%nat else 0%nat.
Proof.
  unfold run. destruct (running w); simpl; [|reflexivity].
  destruct (fetch w net) as [s|e]; [reflexivity|].
  destruct (is_RuntimeError e); reflexivity.
Qed.

(** X18: in every state the timer and the thread can reach, the
    signals emitted so far are as many as the requests that have ended:
    each request gives one signal and nothing else emits one. *)
Theorem one_signal_for_each_answer (w : worker) (s : state) :
  reachable w s -> length (emitted s) = answered s.
Proof.
  induction 1 as [|s e s' Hreach IH Hstep].
  - reflexivity.
  - inversion Hstep; subst.
    + unfold start. destruct (thread s); [exact IH|]. simpl. exact IH.
    + unfold finish. simpl. rewrite length_app, run_length, IH.
      destruct (running w0); lia.
    + exact IH.
Qed.

Lemma one_signal_for_each_answer_witness :
  length (emitted (finish (Scenario.answers (Response 200 (Ok (Scenario.reading "Flat"))))
                          Scenario.worker (initial Scenario.worker)))
  = answered (finish (Scenario.answers (Response 200 (Ok (Scenario.reading "Flat"))))
                     Scenario.worker (initial Scenario.worker)).
Proof.
  apply (one_signal_for_each_answer Scenario.worker).
  eapply reach_step; [apply reach_init|].
  apply step_return. reflexivity.
Defined.

Lemma stopped_step s e s' :
  running (the_worker s) = false -> step s e s' ->
  issued s' = issued s /\ running (the_worker s') = false.
Proof.
  intros Hr Hstep. inversion Hstep; subst.
  - unfold start. destruct (thread s); [auto|]. simpl. rewrite Hr. auto.
  - simpl. auto.
  - simpl. auto.
Qed.

(** X19: once the flag of [stop] is down it stays down, and no
    request is begun any more, whatever triggers, returns and stops
    follow: nothing in the class sets [running] again. *)
Theorem stopped_worker_stays_stopped (s s' : state) (es : list event) :
  running (the_worker s) = false -> steps s es s' ->
  issued s' = issued s /\ running (the_worker s') = false.
Proof.
  intros Hr Hsteps. induction Hsteps as [s|s e s1 es s2 Hstep Hsteps IH].
  - auto.
  - destruct (stopped_step _ _ _ Hr Hstep) as [Hi Hr1].
    destruct (IH Hr1) as [Hi2 Hr2]. split; [congruence|exact Hr2].
Qed.

Lemma stopped_worker_stays_stopped_witness :
  issued (start (set_stopped (finish (Scenario.answers (Failed (Exn OSError "down")))
                                     Scenario.worker (initial Scenario.worker))))
  = issued (set_stopped (finish (Scenario.answers (Failed (Exn OSError "down")))
                                Scenario.worker (initial Scenario.worker)))
  /\ running (the_worker
                (start (set_stopped
                          (finish (Scenario.answers (Failed (Exn OSError "down")))
                                  Scenario.worker (initial Scenario.worker)))))
     = false.
Proof.
  apply (stopped_worker_stays_stopped _ _ [Trigger]).
  - reflexivity.
  - eapply steps_cons; [apply step_trigger|apply steps_nil].
Defined.

(** X20: a [stop] that comes while a request is on its way does not
    silence it: the thread has passed the test of [running], so when the
    request returns its one signal is emitted, and no request follows. *)
Theorem stop_during_a_fetch (s s1 s2 : state) (net : string -> http) :
  fetching s = true ->
  step s Stop s1 -> step s1 (Return net) s2 ->
  (exists sig, emitted s2 = emitted s ++ [sig])
  /\ issued s2 = issued s
  /\ thread s2 = None
  /\ running (the_worker s2) = false.
Proof.
  intros Hf H1 H2. inversion H1; subst. inversion H2; subst.
  match goal with Ht : thread (set_stopped s) = Some _ |- _ =>
    simpl in Ht; rename Ht into Hthread end.
  unfold fetching in Hf. rewrite Hthread in Hf.
  unfold finish. simpl. repeat split.
  pose proof (run_length w net) as Hlen. rewrite Hf in Hlen.
  destruct (run w net) as [|sig [|]]; try discriminate Hlen. eauto.
Qed.

Lemma stop_during_a_fetch_witness :
  (exists sig,
      emitted (finish (Scenario.answers (Response 200 (Ok (Scenario.reading "Flat"))))
                      Scenario.worker (set_stopped (initial Scenario.worker)))
      = emitted (initial Scenario.worker) ++ [sig])
  /\ issued (finish (Scenario.answers (Response 200 (Ok (Scenario.reading "Flat"))))
                    Scenario.worker (set_stopped (initial Scenario.worker)))
     = issued (initial Scenario.worker)
  /\ thread (finish (Scenario.answers (Response 200 (Ok (Scenario.reading "Flat"))))
                    Scenario.worker (set_stopped (initial Scenario.worker)))
     = None
  /\ running (the_worker
                (finish (Scenario.answers (Response 200 (Ok (Scenario.reading "Flat"))))
                        Scenario.worker (set_stopped (initial Scenario.worker))))
     = false.
Proof.
  apply (stop_during_a_fetch
           (initial Scenario.worker)
           (set_stopped (initial Scenario.worker))
           (finish (Scenario.answers (Response 200 (Ok (Scenario.reading "Flat"))))
                   Scenario.worker (set_stopped (initial Scenario.worker)))
           (Scenario.answers (Response 200 (Ok (Scenario.reading "Flat"))))).
  - reflexivity.
  - apply step_stop.
  - apply step_return. reflexivity.
Defined.

End SchedulerMore.

(** ** What [__init__] and [set_url] build *)

Module InitMore.
Import PyStr GlucoseMonitor SpecMore.

Lemma hex_digit_is_hex x :
  is_hex (Sha1.hex_digit (Z.land x 15)) = true.
Proof.
  assert (H : 0 <= Z.land x 15 < 16).
  { change 15 with (Z.ones 4). rewrite Z.land_ones by lia.
    apply Z.mod_pos_bound. reflexivity. }
  assert (Hc : Z.land x 15 = 0 \/ Z.land x 15 = 1 \/ Z.land x 15 = 2
               \/ Z.land x 15 = 3 \/ Z.land x 15 = 4 \/ Z.land x 15 = 5
               \/ Z.land x 15 = 6 \/ Z.land x 15 = 7 \/ Z.land x 15 = 8
               \/ Z.land x 15 = 9 \/ Z.land x 15 = 10 \/ Z.land x 15 = 11
               \/ Z.land x 15 = 12 \/ Z.land x 15 = 13 \/ Z.land x 15 = 14
               \/ Z.land x 15 = 15) by lia.
  repeat (destruct Hc as [Hc|Hc]; [rewrite Hc; reflexivity|]).
  rewrite Hc. reflexivity.
Qed.

Lemma hex32_shape x :
  String.length (Sha1.hex32 x) = 8%nat /\ all_chars is_hex (Sha1.hex32 x) = true.
Proof.
  split; [reflexivity|].
  unfold Sha1.hex32. cbn [fold_right all_chars].
  rewrite !hex_digit_is_hex. reflexivity.
Qed.

Lemma length_append (a b : string) :
  String.length (a +:+ b) = (String.length a + String.length b)%nat.
Proof.
  induction a as [|c a IH]; [reflexivity|].
  change (String c a +:+ b) with (String c (a +:+ b)). simpl. rewrite IH.
  reflexivity.
Qed.

Lemma all_chars_append p (a b : string) :
  all_chars p (a +:+ b) = all_chars p a && all_chars p b.
Proof.
  induction a as [|c a IH]; [reflexivity|].
  change (String c a +:+ b) with (String c (a +:+ b)). simpl. rewrite IH.
  apply andb_assoc.
Qed.

Lemma hexdigest_shape secret :
  String.length (Sha1.hexdigest secret) = 40%nat
  /\ all_chars is_hex (Sha1.hexdigest secret) = true.
Proof.
  unfold Sha1.hexdigest.
  destruct (Sha1.blocks _ _ _) as [[[[a b] c] d] e].
  pose proof (hex32_shape a) as [La Ha]. pose proof (hex32_shape b) as [Lb Hb].
  pose proof (hex32_shape c) as [Lc Hc]. pose proof (hex32_shape d) as [Ld Hd].
  pose proof (hex32_shape e) as [Le He].
  split.
  - rewrite !length_append, La, Lb, Lc, Ld, Le. reflexivity.
  - rewrite !all_chars_append, Ha, Hb, Hc, Hd, He. reflexivity.
Qed.


Lemma resolve_secret_none secret secret_env_name getenv :
  resolve_secret secret secret_env_name getenv = None
  <-> (secret = "env" \/ secret = EmptyString) /\ getenv secret_env_name = None.
Proof.
  unfold resolve_secret. destruct (String.eqb secret "env") eqn:E; simpl.
  - apply String.eqb_eq in E. tauto.
  - apply String.eqb_neq in E. destruct secret as [|c t]; simpl.
    + tauto.
    + split; [discriminate|]. intros [[H|H] _]; [contradiction|discriminate].
Qed.

(** X22: with icons under known keys, [__init__] fails in [set_url]
    with an [AttributeError] exactly when the secret is the word env or
    is empty and the named environment variable is not set; in every
    other case it returns, and the worker it starts is running with the
    URL of the host and the digest of the secret. *)
Theorem init_fails_exactly_without_a_secret
        (label tooltip host secret secret_env_name : string)
        (direction_icons : list (string * string)) (units : string)
        (getenv : string -> option string) (built : list qwidget)
        (table : gmap string string) :
  build_direction_icons direction_icons ∅ = Ok table ->
  (init label tooltip host secret secret_env_name direction_icons units
        getenv built
   = raise AttributeError "'NoneType' object has no attribute 'encode'"
   <-> (secret = "env" \/ secret = EmptyString)
       /\ getenv secret_env_name = None)
  /\ (forall s,
         resolve_secret secret secret_env_name getenv = Some s ->
         exists self worker,
           init label tooltip host secret secret_env_name direction_icons
                units getenv built
           = Ok (self, worker)
           /\ GlucoseMonitorWorker._url worker
              = Some (host +:+ entries_path +:+ Sha1.hexdigest s)
           /\ GlucoseMonitorWorker.running worker = true).
Proof.
  intros Hi. split.
  - rewrite <- resolve_secret_none. unfold init. rewrite Hi. simpl.
    destruct (resolve_secret secret secret_env_name getenv) as [s|]; simpl.
    + split; discriminate.
    + split; reflexivity.
  - intros s Hs. unfold init. rewrite Hi, Hs. simpl.
    eexists _, _. repeat split.
Qed.

Lemma init_fails_exactly_without_a_secret_witness :
  (init Defaults.label Defaults.tooltip Defaults.host Defaults.secret
        Defaults.secret_env_name Defaults.direction_icons
        Defaults.sgv_measurement_units (fun _ => None) [QLabel EmptyString]
   = raise AttributeError "'NoneType' object has no attribute 'encode'"
   <-> (Defaults.secret = "env" \/ Defaults.secret = EmptyString)
       /\ (fun _ : string => @None string) Defaults.secret_env_name = None)
  /\ (forall s,
         resolve_secret Defaults.secret Defaults.secret_env_name (fun _ => None)
         = Some s ->
         exists self worker,
           init Defaults.label Defaults.tooltip Defaults.host Defaults.secret
                Defaults.secret_env_name Defaults.direction_icons
                Defaults.sgv_measurement_units (fun _ => None)
                [QLabel EmptyString]
           = Ok (self, worker)
           /\ GlucoseMonitorWorker._url worker
              = Some (Defaults.host +:+ entries_path +:+ Sha1.hexdigest s)
           /\ GlucoseMonitorWorker.running worker = true).
Proof.
  apply (init_fails_exactly_without_a_secret
           Defaults.label Defaults.tooltip Defaults.host Defaults.secret
           Defaults.secret_env_name Defaults.direction_icons
           Defaults.sgv_measurement_units (fun _ => None)
           [QLabel EmptyString] Scenario.icons).
  vm_compute. reflexivity.
Defined.

(** *** The icon table *)

Lemma mapping_cases key code :
  direction_icons_mapping !! key = Some code ->
  In (key, code)
     [("double_up", "DoubleUp"); ("single_up", "SingleUp");
      ("forty_five_up", "FortyFiveUp"); ("flat", "Flat");
      ("forty_five_down", "FortyFiveDown"); ("single_down", "SingleDown");
      ("double_down", "DoubleDown")].
Proof.
  intros H. apply list_elem_of_In.
  apply (elem_of_list_to_map_2 (M := gmap string)). exact H.
Qed.

(** No two keys of the configuration stand for the same trend code. *)
Lemma mapping_inj k1 k2 code :
  direction_icons_mapping !! k1 = Some code ->
  direction_icons_mapping !! k2 = Some code -> k1 = k2.
Proof.
  intros H1 H2. apply mapping_cases in H1. apply mapping_cases in H2.
  simpl in H1, H2.
  repeat (destruct H1 as [H1|H1]; [injection H1 as <- <-|]);
    try contradiction;
    repeat (destruct H2 as [H2|H2]; [try discriminate H2; injection H2 as <-|]);
    try contradiction; reflexivity.
Qed.

Lemma mapping_unknown key :
  ~ In key icon_keys -> direction_icons_mapping !! key = None.
Proof.
  intros H. destruct (direction_icons_mapping !! key) as [code|] eqn:E;
    [|reflexivity].
  exfalso. apply H. apply mapping_cases in E. simpl in E. simpl.
  repeat (destruct E as [E|E]; [injection E as <- _; tauto|]).
  contradiction.
Qed.

Lemma mapping_known key :
  In key icon_keys -> exists code, direction_icons_mapping !! key = Some code.
Proof.
  simpl. intros H.
  repeat (destruct H as [<-|H]; [eexists; reflexivity|]). contradiction.
Qed.

(** X23: a key of [direction_icons] outside the seven of the mapping
    makes the comprehension raise [KeyError] for that key, the first such
    key in the order of the dict. *)
Theorem icons_under_an_unknown_key
        (pre post : list (string * string)) (key value : string)
        (acc : gmap string string) :
  Forall (fun kv => In (fst kv) icon_keys) pre ->
  ~ In key icon_keys ->
  build_direction_icons (pre ++ (key, value) :: post) acc = raise KeyError key.
Proof.
  intros Hpre Hkey. revert acc.
  induction Hpre as [|[k v] pre Hk Hpre IH]; intros acc.
  - simpl. rewrite (mapping_unknown _ Hkey). reflexivity.
  - simpl in Hk. destruct (mapping_known _ Hk) as [code Hc].
    change (((k, v) :: pre) ++ (key, value) :: post)
      with ((k, v) :: (pre ++ (key, value) :: post)).
    cbn [build_direction_icons]. rewrite Hc. apply IH.
Qed.

Lemma icons_under_an_unknown_key_witness :
  build_direction_icons
    ([("flat", "-")] ++ ("up", "^") :: [("double_up", "^^")]) ∅
  = raise KeyError "up".
Proof.
  apply (icons_under_an_unknown_key [("flat", "-")] [("double_up", "^^")]
                                    "up" "^" ∅).
  - constructor; [simpl; tauto|constructor].
  - simpl. intros H.
    repeat (destruct H as [H|H]; [discriminate H|]). exact H.
Defined.

Lemma build_direction_icons_lookup items : forall acc table,
  NoDup (map fst items) ->
  build_direction_icons items acc = Ok table ->
  (forall key value code,
      In (key, value) items -> direction_icons_mapping !! key = Some code ->
      table !! code = Some value)
  /\ (forall code,
         (forall key value,
             In (key, value) items ->
             direction_icons_mapping !! key <> Some code) ->
         table !! code = acc !! code).
Proof.
  induction items as [|[k0 v0] tl IH]; intros acc table Hnd Hb.
  - simpl in Hb. injection Hb as <-. split; [intros ? ? ? []|reflexivity].
  - cbn [build_direction_icons] in Hb.
    destruct (direction_icons_mapping !! k0) as [c0|] eqn:Hc0; [|discriminate].
    simpl in Hnd. apply NoDup_cons in Hnd as [Hnotin Hnd].
    destruct (IH _ _ Hnd Hb) as [HA HB]. split.
    + intros key value code [Heq|Hin] Hcode.
      * injection Heq as <- <-. rewrite Hcode in Hc0. injection Hc0 as <-.
        rewrite HB.
        -- apply lookup_insert_eq.
        -- intros k v Hin Hk. apply Hnotin.
           rewrite (mapping_inj _ _ _ Hcode Hk).
           apply list_elem_of_In. apply in_map_iff. exists (k, v). auto.
      * exact (HA _ _ _ Hin Hcode).
    + intros code Hnone. rewrite HB.
      * apply lookup_insert_ne. intros <-.
        exact (Hnone k0 v0 (or_introl eq_refl) Hc0).
      * intros k v Hin. apply (Hnone k v). right. exact Hin.
Qed.

(** X24: when the comprehension ends, the icon table holds, under the
    trend code of each configured key, exactly the glyph configured for
    it, and nothing under a trend code no configured key stands for (the
    keys of a dict are distinct). *)
Theorem icon_table_of_the_configuration
        (items : list (string * string)) (table : gmap string string) :
  NoDup (map fst items) ->
  build_direction_icons items ∅ = Ok table ->
  (forall key value code,
      In (key, value) items -> direction_icons_mapping !! key = Some code ->
      table !! code = Some value)
  /\ (forall code,
         (forall key value,
             In (key, value) items ->
             direction_icons_mapping !! key <> Some code) ->
         table !! code = None).
Proof.
  intros Hnd Hb.
  destruct (build_direction_icons_lookup _ _ _ Hnd Hb) as [HA HB].
  split; [exact HA|]. intros code H. rewrite (HB code H). apply lookup_empty.
Qed.

Lemma icon_table_of_the_configuration_witness :
  (forall key value code,
      In (key, value) Defaults.direction_icons ->
      direction_icons_mapping !! key = Some code ->
      Scenario.icons !! code = Some value)
  /\ (forall code,
         (forall key value,
             In (key, value) Defaults.direction_icons ->
             direction_icons_mapping !! key <> Some code) ->
         Scenario.icons !! code = None).
Proof.
  apply (icon_table_of_the_configuration Defaults.direction_icons Scenario.icons).
  - simpl.
    repeat (apply NoDup_cons_2;
            [intros H; apply list_elem_of_In in H; simpl in H;
             repeat destruct H as [H|H]; try discriminate H; exact H|]).
    apply NoDup_nil_2.
  - vm_compute. reflexivity.
Defined.

End InitMore.

(** ** The timestamps [strptime] accepts *)

Module StalenessMore.
Import PyStr DateTime.

Lemma digit_range s a t : digit s = Some (a, t) -> 0 <= a <= 9.
Proof.
  destruct s as [|c s]; simpl; [discriminate|].
  unfold is_digit. destruct ((48 <=? code c) && (code c <=? 57)) eqn:E;
    [|discriminate].
  intros [= <- _]. apply andb_true_iff in E as [H1 H2].
  apply Z.leb_le in H1. apply Z.leb_le in H2. lia.
Qed.

(** A directive of one or two digits gives two digits its first test
    accepts, or one digit its second test accepts. *)
Lemma one_or_two_cases ok2 ok1 s v t :
  one_or_two ok2 ok1 s = Some (v, t) ->
  (exists a b, 0 <= a <= 9 /\ 0 <= b <= 9 /\ ok2 a b = true /\ v = 10 * a + b)
  \/ (exists a, 0 <= a <= 9 /\ ok1 a = true /\ v = a).
Proof.
  unfold one_or_two.
  destruct (digit s) as [[a s1]|] eqn:Ha; [|discriminate].
  apply digit_range in Ha.
  destruct (digit s1) as [[b s2]|] eqn:Hb.
  - apply digit_range in Hb.
    destruct (ok2 a b) eqn:H2.
    + intros [= <- _]. left. eauto 10.
    + destruct (ok1 a) eqn:H1; [|discriminate].
      intros [= <- _]. right. eauto.
  - destruct (ok1 a) eqn:H1; [|discriminate].
    intros [= <- _]. right. eauto.
Qed.

Ltac to_prop :=
  repeat match goal with
         | H : _ && _ = true |- _ => apply andb_true_iff in H as [? ?]
         | H : _ || _ = true |- _ => apply orb_true_iff in H as [?|?]
         | H : (_ =? _) = true |- _ => apply Z.eqb_eq in H
         | H : (_ <=? _) = true |- _ => apply Z.leb_le in H
         | H : (_ <? _) = true |- _ => apply Z.ltb_lt in H
         end.

Lemma dir_Y_range s v t : dir_Y s = Some (v, t) -> 0 <= v <= 9999.
Proof.
  unfold dir_Y.
  destruct (digit s) as [[a s1]|] eqn:Ha; [|discriminate].
  destruct (digit s1) as [[b s2]|] eqn:Hb; [|discriminate].
  destruct (digit s2) as [[c s3]|] eqn:Hc; [|discriminate].
  destruct (digit s3) as [[d s4]|] eqn:Hd; [|discriminate].
  apply digit_range in Ha, Hb, Hc, Hd. intros [= <- _]. lia.
Qed.

Lemma dir_m_range s v t : dir_m s = Some (v, t) -> 1 <= v <= 12.
Proof.
  intros H. apply one_or_two_cases in H
    as [(a & b & Ha & Hb & Hok & ->)|(a & Ha & Hok & ->)]; to_prop; lia.
Qed.

Lemma dir_d_range s v t : dir_d s = Some (v, t) -> 1 <= v <= 31.
Proof.
  unfold dir_d.
  destruct (one_or_two _ _ s) as [[v' t']|] eqn:E.
  - intros [= <- _]. apply one_or_two_cases in E
      as [(a & b & Ha & Hb & Hok & ->)|(a & Ha & Hok & ->)]; to_prop; lia.
  - destruct (lit 32 32 s) as [s1|]; [|discriminate].
    destruct (digit s1) as [[a s2]|] eqn:Ha; [|discriminate].
    apply digit_range in Ha.
    destruct (1 <=? a) eqn:H1; [|discriminate].
    intros [= <- _]. to_prop. lia.
Qed.

Lemma dir_H_range s v t : dir_H s = Some (v, t) -> 0 <= v <= 23.
Proof.
  intros H. apply one_or_two_cases in H
    as [(a & b & Ha & Hb & Hok & ->)|(a & Ha & Hok & ->)]; to_prop; lia.
Qed.

Lemma dir_M_range s v t : dir_M s = Some (v, t) -> 0 <= v <= 59.
Proof.
  intros H. apply one_or_two_cases in H
    as [(a & b & Ha & Hb & Hok & ->)|(a & Ha & Hok & ->)]; to_prop; lia.
Qed.

Lemma dir_S_range s v t : dir_S s = Some (v, t) -> 0 <= v <= 61.
Proof.
  intros H. apply one_or_two_cases in H
    as [(a & b & Ha & Hb & Hok & ->)|(a & Ha & Hok & ->)]; to_prop; lia.
Qed.

Lemma frac_digits_range n : forall w s v t,
  0 <= w -> frac_digits n w s = (v, t) ->
  0 <= v /\ (1 <= w -> v <= 10 * w - 1) /\ (w = 0 -> v = 0).
Proof.
  induction n as [|n IH]; intros w s v t Hw; simpl.
  - intros [= <- _]. lia.
  - destruct (digit s) as [[a s1]|] eqn:Ha.
    + destruct (frac_digits n (w / 10) s1) as [v' rest] eqn:E.
      intros [= <- _]. apply digit_range in Ha.
      assert (Hw' : 0 <= w / 10) by (apply Z.div_pos; lia).
      destruct (IH _ _ _ _ Hw' E) as (H1 & H2 & H3).
      pose proof (Z.mul_div_le w 10 ltac:(lia)) as Hdiv.
      split; [nia|]. split.
      * intros Hw1. destruct (Z.eq_dec (w / 10) 0) as [E0|E0].
        -- rewrite (H3 E0). nia.
        -- specialize (H2 ltac:(lia)). nia.
      * intros ->. change (0 / 10) with 0 in H3. rewrite (H3 eq_refl). lia.
    + intros [= <- _]. lia.
Qed.

Lemma dir_f_range s v t : dir_f s = Some (v, t) -> 0 <= v <= 999999.
Proof.
  unfold dir_f. destruct (digit s) as [[a s1]|] eqn:Ha; [|discriminate].
  destruct (frac_digits 5 10000 s1) as [v' rest] eqn:E.
  intros [= <- _]. apply digit_range in Ha.
  assert (Hw : 0 <= 10000) by lia.
  destruct (frac_digits_range 5 10000 s1 v' rest Hw E) as (H1 & H2 & _).
  specialize (H2 ltac:(lia)). lia.
Qed.

Lemma parse_local_range s yy mo dd hh mi ss us rest :
  parse_local s = Some (yy, mo, dd, hh, mi, ss, us, rest) ->
  0 <= yy <= 9999 /\ 1 <= mo <= 12 /\ 1 <= dd <= 31 /\ 0 <= hh <= 23
  /\ 0 <= mi <= 59 /\ 0 <= ss <= 61 /\ 0 <= us <= 999999.
Proof.
  unfold parse_local.
  destruct (dir_Y s) as [[y1 s1]|] eqn:EY; [|discriminate].
  destruct (lit 45 45 s1) as [s2|]; [|discriminate].
  destruct (dir_m s2) as [[m1 s3]|] eqn:Em; [|discriminate].
  destruct (lit 45 45 s3) as [s4|]; [|discriminate].
  destruct (dir_d s4) as [[d1 s5]|] eqn:Ed; [|discriminate].
  destruct (lit 116 84 s5) as [s6|]; [|discriminate].
  destruct (dir_H s6) as [[h1 s7]|] eqn:EH; [|discriminate].
  destruct (lit 58 58 s7) as [s8|]; [|discriminate].
  destruct (dir_M s8) as [[mi1 s9]|] eqn:EM; [|discriminate].
  destruct (lit 58 58 s9) as [s10|]; [|discriminate].
  destruct (dir_S s10) as [[ss1 s11]|] eqn:ES; [|discriminate].
  destruct (lit 46 46 s11) as [s12|]; [|discriminate].
  destruct (dir_f s12) as [[us1 s13]|] eqn:Ef; [|discriminate].
  intros [= <- <- <- <- <- <- <- _].
  apply dir_Y_range in EY. apply dir_m_range in Em. apply dir_d_range in Ed.
  apply dir_H_range in EH. apply dir_M_range in EM. apply dir_S_range in ES.
  apply dir_f_range in Ef. repeat split; lia.
Qed.



End StalenessMore.

(** ** The mmol/l converter *)

Module ConvertMore.
Import PyStr GlucoseMonitor.

Lemma shr_1_nonneg mrs : 0 <= shr_m mrs -> 0 <= shr_m (shr_1 mrs).
Proof.
  destruct mrs as [m r s]. destruct m as [|[p|p|]|p]; simpl; lia.
Qed.

Lemma iter_pos_nonneg p : forall mrs,
  0 <= shr_m mrs -> 0 <= shr_m (SpecFloat.iter_pos shr_1 p mrs).
Proof.
  induction p as [p IH|p IH|]; intros mrs H; simpl.
  - apply IH, IH, shr_1_nonneg, H.
  - apply IH, IH, H.
  - apply shr_1_nonneg, H.
Qed.

Lemma shr_nonneg mrs e n :
  0 <= shr_m mrs -> 0 <= shr_m (fst (shr mrs e n)).
Proof.
  intros H. destruct n; simpl; try exact H. apply iter_pos_nonneg, H.
Qed.

Lemma shr_fexp_nonneg m e l :
  0 <= m -> 0 <= shr_m (fst (shr_fexp PyFloat.prec PyFloat.emax m e l)).
Proof.
  intros H. unfold shr_fexp. apply shr_nonneg.
  destruct l as [|[| |]]; exact H.
Qed.

Lemma round_nearest_even_nonneg m l :
  0 <= m -> 0 <= round_nearest_even m l.
Proof.
  intros H. unfold round_nearest_even.
  destruct l as [|[| |]]; try lia. destruct (Z.even m); lia.
Qed.

(** Rounding a magnitude gives a float of the sign asked for. *)
Lemma binary_round_aux_sign sx m e l :
  0 <= m ->
  binary_round_aux PyFloat.prec PyFloat.emax sx m e l <> S754_nan
  /\ PyFloat.sign_bit (binary_round_aux PyFloat.prec PyFloat.emax sx m e l) = sx.
Proof.
  intros H. unfold binary_round_aux.
  pose proof (shr_fexp_nonneg m e l H) as H1.
  destruct (shr_fexp PyFloat.prec PyFloat.emax m e l) as [mrs' e'].
  simpl in H1.
  pose proof (round_nearest_even_nonneg (shr_m mrs') (loc_of_shr_record mrs') H1)
    as H2.
  pose proof (shr_fexp_nonneg _ e' loc_Exact H2) as H3.
  destruct (shr_fexp PyFloat.prec PyFloat.emax _ e' loc_Exact) as [mrs'' e''].
  simpl in H3.
  destruct (shr_m mrs'') as [|p|p]; try lia.
  - split; [discriminate|reflexivity].
  - destruct (e'' <=? PyFloat.emax - PyFloat.prec);
      split; try discriminate; reflexivity.
Qed.

Lemma SFdiv_core_binary_nonneg mx ex my ey q e l :
  SFdiv_core_binary PyFloat.prec PyFloat.emax (Zpos mx) ex (Zpos my) ey
  = (q, e, l) -> 0 <= q.
Proof.
  unfold SFdiv_core_binary.
  set (s := _ - _ - Z.min _ _).
  set (m' := match s with Z0 => Zpos mx | Zpos _ => Z.shiftl (Zpos mx) s
                     | Zneg _ => 0 end).
  assert (Hm : 0 <= m').
  { subst m'. destruct s; try lia. apply Z.shiftl_nonneg. lia. }
  pose proof (Z_div_mod m' (Zpos my) ltac:(lia)) as Hdm.
  destruct (Z.div_eucl m' (Zpos my)) as [q' r']. intros [= <- _ _]. nia.
Qed.

(** Dividing a finite float by 18.0 gives a float of the same sign. *)
Lemma div_by_eighteen_sign f :
  PyFloat.is_finite f = true ->
  PyFloat.div f PyFloat.eighteen <> S754_nan
  /\ PyFloat.sign_bit (PyFloat.div f PyFloat.eighteen) = PyFloat.sign_bit f.
Proof.
  intros Hf. unfold PyFloat.div.
  change PyFloat.eighteen with (S754_finite false 5066549580791808 (-48)).
  destruct f as [s|s| |s m e]; try discriminate Hf.
  - simpl. rewrite xorb_false_r. split; [discriminate|reflexivity].
  - cbn [SFdiv].
    destruct (SFdiv_core_binary _ _ _ _ _ _) as [[q e'] l] eqn:E.
    apply SFdiv_core_binary_nonneg in E. rewrite xorb_false_r.
    apply binary_round_aux_sign. exact E.
Qed.

Lemma format_1f_sign x :
  x <> S754_nan -> PyFloat.sign_bit x = true ->
  exists t, PyFloat.format_1f x = String "-" t.
Proof.
  intros Hn Hs. destruct x as [s|s| |s m e]; simpl in Hs; subst;
    try contradiction; eexists; reflexivity.
Qed.

(** X26: with the unit mmol/l a finite delta whose sign is minus is
    printed with the minus sign, however small it is: the converter
    never raises on a float, and a value that rounds to zero is printed
    as minus zero. *)
Theorem mmol_l_keeps_the_sign (sgv_delta : float) :
  PyFloat.is_finite sgv_delta = true ->
  PyFloat.sign_bit sgv_delta = true ->
  _available_sgv_measurement_units !! "mmol/l" = Some mmol_l
  /\ exists t, mmol_l (Float sgv_delta) = Ok (String "-" t).
Proof.
  intros Hf Hs. split; [reflexivity|].
  destruct (div_by_eighteen_sign _ Hf) as [Hn Hsign].
  rewrite Hs in Hsign.
  destruct (format_1f_sign _ Hn Hsign) as [t Ht].
  exists t. unfold mmol_l. rewrite Ht. reflexivity.
Qed.

Lemma mmol_l_keeps_the_sign_witness :
  _available_sgv_measurement_units !! "mmol/l" = Some mmol_l
  /\ exists t, mmol_l (Float Scenario.minus_a_quarter) = Ok (String "-" t).
Proof.
  apply (mmol_l_keeps_the_sign Scenario.minus_a_quarter); reflexivity.
Defined.

Lemma of_int_digit d : 0 <= d <= 9 -> String.length (of_int d) = 1%nat.
Proof.
  intros H.
  assert (Hc : d = 0 \/ d = 1 \/ d = 2 \/ d = 3 \/ d = 4 \/ d = 5 \/ d = 6
               \/ d = 7 \/ d = 8 \/ d = 9) by lia.
  repeat (destruct Hc as [->|Hc]; [reflexivity|]). subst d. reflexivity.
Qed.

Lemma round_half_even_div_nonneg n d :
  0 <= n -> 0 < d -> 0 <= PyFloat.round_half_even_div n d.
Proof.
  intros Hn Hd. unfold PyFloat.round_half_even_div.
  assert (0 <= n / d) by (apply Z.div_pos; lia).
  destruct (2 * (n mod d) ?= d); [destruct (Z.even (n / d))| |]; lia.
Qed.

(** X27: for a finite float that is not zero, [format(x, ".1f")]
    prints the sign, the whole part, a point and exactly one digit: the
    number of tenths nearest to the magnitude of the float, a tie going to
    the even number of tenths. *)
Theorem format_1f_nearest_tenth (s : bool) (m : positive) (e : Z) :
  exists tenths,
    0 <= tenths
    /\ PyFloat.format_1f (S754_finite s m e)
       = (if s then "-" else EmptyString)
           +:+ of_int (tenths / 10) +:+ "." +:+ of_int (tenths mod 10)
    /\ String.length (of_int (tenths mod 10)) = 1%nat
    /\ (Qabs (inject_Z tenths
              - inject_Z 10 * Qabs (PyFloat.to_Q (S754_finite s m e)))
        <= 1 # 2)%Q
    /\ ((Qabs (inject_Z tenths
               - inject_Z 10 * Qabs (PyFloat.to_Q (S754_finite s m e)))
         == 1 # 2)%Q -> Z.even tenths = true).
Proof.
  assert (Hdigit : forall t, String.length (of_int (t mod 10)) = 1%nat).
  { intros t. apply of_int_digit.
    pose proof (Z.mod_pos_bound t 10 ltac:(lia)). lia. }
  destruct e as [|p|p].
  - exists (Zpos m * 10). split; [lia|]. split; [reflexivity|].
    split; [apply Hdigit|].
    assert (Hz : (inject_Z (Zpos m * 10)
                  - inject_Z 10 * Qabs (PyFloat.to_Q (S754_finite s m 0)) == 0)%Q).
    { destruct s; unfold Qeq; simpl; lia. }
    rewrite Hz. split; [discriminate|]. intros H. discriminate H.
  - assert (Hpow : 0 < 2 ^ Zpos p) by (apply Z.pow_pos_nonneg; lia).
    exists (Zpos m * 2 ^ Zpos p * 10). split; [lia|]. split; [reflexivity|].
    split; [apply Hdigit|].
    assert (Hz : (inject_Z (Zpos m * 2 ^ Zpos p * 10)
                  - inject_Z 10 * Qabs (PyFloat.to_Q (S754_finite s m (Zpos p)))
                  == 0)%Q).
    { destruct s; unfold Qeq; cbn [PyFloat.to_Q Qabs Qopp inject_Z Qminus Qplus
                                     Qmult Qnum Qden];
        rewrite ?Z.abs_opp, ?Z.abs_eq by lia; lia. }
    rewrite Hz. split; [discriminate|]. intros H. discriminate H.
  - pose proof (Pos2Z.inj_pow 2 p) as Hpow.
    pose proof (ConvertFacts.round_half_even_div_nearest
                  (Zpos m * 10) (2 ^ Zpos p)) as Hnear.
    pose proof (round_half_even_div_nonneg (Zpos m * 10) (2 ^ Zpos p)) as Hpos.
    rewrite <- Hpow in Hnear, Hpos.
    specialize (Hnear ltac:(lia)) as [Hle Htie].
    specialize (Hpos ltac:(lia) ltac:(lia)).
    exists (PyFloat.round_half_even_div (Zpos m * 10) (2 ^ Zpos p)).
    rewrite <- Hpow.
    set (t := PyFloat.round_half_even_div (Zpos m * 10) (Zpos (2 ^ p))) in *.
    split; [exact Hpos|]. split.
    { cbn [PyFloat.format_1f]. rewrite <- Hpow. reflexivity. }
    split; [apply Hdigit|].
    assert (Hq : (inject_Z 10 * Qabs (PyFloat.to_Q (S754_finite s m (Zneg p)))
                  == (Zpos m * 10 # 2 ^ p))%Q).
    { destruct s; unfold Qeq; simpl; lia. }
    rewrite Hq.
    destruct (ConvertFacts.nearest_as_Q t (Zpos m * 10) (2 ^ p)) as [H1 H2].
    split; [apply H1; exact Hle|].
    intros H. apply Htie, H2, H.
Qed.

End ConvertMore.
